(** * generate-srt: subtitle rendering and transcription-result normalisation

    A shallow embedding of [src/main.py].  Python values are an inductive
    type, Python floats are the binary64 primitive floats, every function
    that may raise returns a [result], and the command-line driver runs in a
    small trace monad over a [world] of external outcomes. *)

From Stdlib Require Import ZArith String Ascii List Bool Lia.
From Stdlib Require Import Floats DecimalString.
Import ListNotations.

Set Warnings "-register-all".

Open Scope string_scope.
Open Scope Z_scope.

(** ** Exceptions and the error monad *)

Inductive pyexn : Type :=
| KeyError
| ValueError
| OverflowError
| TypeError
| AttributeError
| FileNotFoundError
| CalledProcessError
| ImportError
| OSError
| RuntimeError.

Inductive result (A : Type) : Type :=
| Ok (a : A)
| Raise (e : pyexn).

Arguments Ok {A} a.
Arguments Raise {A} e.

Definition bind {A B : Type} (m : result A) (k : A -> result B) : result B :=
  match m with
  | Ok a => k a
  | Raise e => Raise e
  end.

Notation "x <- m ;; k" := (bind m (fun x => k))
  (at level 61, m at next level, right associativity).

Definition is_ok {A : Type} (m : result A) : bool :=
  match m with Ok _ => true | Raise _ => false end.

(** ** Python values

    Strings are sequences of code points below 256; a dict is the list of its
    items in insertion order, keyed by strings, and a lookup takes the first
    item with the key. *)

Inductive pyval : Type :=
| PNone
| PBool (b : bool)
| PInt (z : Z)
| PFloat (f : float)
| PStr (s : string)
| PList (l : list pyval)
| PDict (d : list (string * pyval)).

Fixpoint dict_lookup (d : list (string * pyval)) (k : string) : option pyval :=
  match d with
  | [] => None
  | (k', v) :: d' => if String.eqb k' k then Some v else dict_lookup d' k
  end.

(** [seg[key]] *)
Definition py_getitem (v : pyval) (key : string) : result pyval :=
  match v with
  | PDict d =>
      match dict_lookup d key with
      | Some x => Ok x
      | None => Raise KeyError
      end
  | _ => Raise TypeError
  end.

(** [obj.get(key, default)]: only a dict has the method. *)
Definition py_get (v : pyval) (key : string) (default : pyval) : result pyval :=
  match v with
  | PDict d =>
      match dict_lookup d key with
      | Some x => Ok x
      | None => Ok default
      end
  | _ => Raise AttributeError
  end.

(** [isinstance(v, (int, float))]: [bool] is a subclass of [int]. *)
Definition isinstance_int_float (v : pyval) : bool :=
  match v with
  | PBool _ | PInt _ | PFloat _ => true
  | _ => false
  end.

(** ** Strings *)

Definition nl : string := String "010"%char EmptyString.

Fixpoint join (sep : string) (l : list string) : string :=
  match l with
  | [] => ""
  | [x] => x
  | x :: rest => x ++ sep ++ join sep rest
  end.

Fixpoint repeat_string (s : string) (n : nat) : string :=
  match n with
  | O => ""
  | S n' => s ++ repeat_string s n'
  end.

(** [str.isspace] on one code point below 256. *)
Definition py_isspace (c : ascii) : bool :=
  let n := N_of_ascii c in
  ((9 <=? n) && (n <=? 13) || (28 <=? n) && (n <=? 32)
   || (n =? 133) || (n =? 160))%N.

Fixpoint lstrip_chars (l : list ascii) : list ascii :=
  match l with
  | [] => []
  | c :: l' => if py_isspace c then lstrip_chars l' else l
  end.

Definition rstrip_chars (l : list ascii) : list ascii :=
  rev (lstrip_chars (rev l)).

(** [s.strip()] *)
Definition strip (s : string) : string :=
  string_of_list_ascii (rstrip_chars (lstrip_chars (list_ascii_of_string s))).

(** [v.strip()]: only a str has the method. *)
Definition py_strip (v : pyval) : result string :=
  match v with
  | PStr s => Ok (strip s)
  | _ => Raise AttributeError
  end.

(** ** Integers as text *)

(** The decimal text of an integer: the digits, after a minus sign for a
    negative one.  It is what [str(n)] and the [d] format return when they
    return. *)
Definition str_of_int (z : Z) : string := NilZero.string_of_int (Z.to_int z).

(** The conversion of an int to decimal text raises ValueError when the int
    has more than [sys.int_max_str_digits] digits, 4300 by default: an int
    has more than 4300 digits exactly when its absolute value is at least
    10^4300. *)
Definition int_str_limit : Z := Eval vm_compute in 10 ^ 4300.

Definition exceeds_str_digits (z : Z) : bool := int_str_limit <=? Z.abs z.

(** The text of [f"{z:0<width>d}"]: the sign counts in the width, zeros go
    after it. *)
Definition format_0d_text (width : nat) (z : Z) : string :=
  if (z <? 0)%Z then
    let digits := str_of_int (- z) in
    "-" ++ repeat_string "0" (Nat.pred width - String.length digits) ++ digits
  else
    let digits := str_of_int z in
    repeat_string "0" (width - String.length digits) ++ digits.

(** [f"{z:0<width>d}"] *)
Definition format_0d (width : nat) (z : Z) : result string :=
  if exceeds_str_digits z then Raise ValueError
  else Ok (format_0d_text width z).

(** ** Floats *)

Definition SF_is_finite (x : spec_float) : bool :=
  match x with
  | S754_zero _ | S754_finite _ _ _ => true
  | _ => false
  end.

Definition float_is_finite (f : float) : bool := SF_is_finite (Prim2SF f).

(** The integer nearest to [m * 2^e], ties to the even one. *)
Definition round_half_even (m : positive) (e : Z) : Z :=
  if (0 <=? e)%Z then Z.pos m * 2 ^ e
  else
    let d := 2 ^ (- e) in
    let q := Z.pos m / d in
    let r := Z.pos m mod d in
    match 2 * r ?= d with
    | Lt => q
    | Eq => if Z.even q then q else q + 1
    | Gt => q + 1
    end.

(** [round(f)] of a float, one argument: an int, or an exception. *)
Definition round_float (f : float) : result Z :=
  match Prim2SF f with
  | S754_zero _ => Ok 0
  | S754_finite s m e =>
      Ok (if s then - round_half_even m e else round_half_even m e)
  | S754_infinity _ => Raise OverflowError
  | S754_nan => Raise ValueError
  end.

(** [float(z)] of an int: the nearest double, [OverflowError] beyond them. *)
Definition float_of_int (z : Z) : result float :=
  let x := binary_normalize prec emax z 0 false in
  if SF_is_finite x then Ok (SF2Prim x) else Raise OverflowError.

Definition int_of_bool (b : bool) : Z := if b then 1 else 0.

(** *** [float(s)] of a str

    Surrounding whitespace is dropped, then the text must be a decimal number
    (digits, with single underscores between digits, an optional point and an
    optional exponent) or one of inf, infinity, nan in any case, with an
    optional sign.  The value is the nearest double, ties to even. *)

Definition float_isspace (c : ascii) : bool :=
  let n := N_of_ascii c in
  ((9 <=? n) && (n <=? 13) || (n =? 32) || (n =? 133) || (n =? 160))%N.

Fixpoint float_lstrip (l : list ascii) : list ascii :=
  match l with
  | [] => []
  | c :: l' => if float_isspace c then float_lstrip l' else l
  end.

Definition float_strip (l : list ascii) : list ascii :=
  rev (float_lstrip (rev (float_lstrip l))).

Definition is_digit (c : ascii) : bool :=
  let n := N_of_ascii c in ((48 <=? n) && (n <=? 57))%N.

Definition digit_value (c : ascii) : Z := Z.of_N (N_of_ascii c) - 48.

Definition lower (c : ascii) : ascii :=
  let n := N_of_ascii c in
  if ((65 <=? n) && (n <=? 90))%N then ascii_of_N (n + 32) else c.

(** Digits after the first one of a digit part: value so far, digits read so
    far, and the text left. *)
Fixpoint digits_tail (l : list ascii) (acc : Z) (n : Z)
  : Z * Z * list ascii :=
  match l with
  | [] => (acc, n, [])
  | c :: l' =>
      if is_digit c then digits_tail l' (10 * acc + digit_value c) (n + 1)
      else if Ascii.eqb c "_" then
        match l' with
        | d :: l'' =>
            if is_digit d
            then digits_tail l'' (10 * acc + digit_value d) (n + 1)
            else (acc, n, l)
        | [] => (acc, n, l)
        end
      else (acc, n, l)
  end.

(** A digit part, possibly empty (then no digit is read). *)
Definition digitpart (l : list ascii) (acc : Z) : Z * Z * list ascii :=
  match l with
  | c :: l' =>
      if is_digit c then digits_tail l' (10 * acc + digit_value c) 1
      else (acc, 0, l)
  | [] => (acc, 0, [])
  end.

Definition read_sign (l : list ascii) : bool * list ascii :=
  match l with
  | c :: l' =>
      if Ascii.eqb c "-" then (true, l')
      else if Ascii.eqb c "+" then (false, l')
      else (false, l)
  | [] => (false, [])
  end.

(** The exponent, when the text left is one: [Some 0] for no text at all. *)
Definition read_exponent (l : list ascii) : option Z :=
  match l with
  | [] => Some 0
  | c :: l' =>
      if Ascii.eqb (lower c) "e" then
        let '(neg, l1) := read_sign l' in
        match digitpart l1 0 with
        | (_, 0, _) => None
        | (v, _, []) => Some (if neg then - v else v)
        | _ => None
        end
      else None
  end.

(** The double nearest to [d * 10^e] (for [0 <= d]), with the given sign. *)
Definition SF_of_decimal (neg : bool) (d e : Z) : spec_float :=
  if (d =? 0)%Z then S754_zero neg
  else
    let num := d * 10 ^ Z.max e 0 in
    let den := 10 ^ Z.max (- e) 0 in
    let '(q, e', l) := SFdiv_core_binary prec emax num 0 den 0 in
    binary_round_aux prec emax neg q e' l.

Definition parse_decimal (neg : bool) (l : list ascii) : option spec_float :=
  let '(ip, ni, l1) := digitpart l 0 in
  let '(m, nf, l2) :=
    match l1 with
    | c :: l1' => if Ascii.eqb c "." then digitpart l1' ip else (ip, 0, l1)
    | [] => (ip, 0, l1)
    end in
  if (ni + nf =? 0)%Z then None
  else
    match read_exponent l2 with
    | Some x => Some (SF_of_decimal neg m (x - nf))
    | None => None
    end.

Definition parse_float (s : string) : option spec_float :=
  let '(neg, l) := read_sign (float_strip (list_ascii_of_string s)) in
  let word := string_of_list_ascii (map lower l) in
  if String.eqb word "inf" || String.eqb word "infinity"
  then Some (S754_infinity neg)
  else if String.eqb word "nan" then Some S754_nan
  else parse_decimal neg l.

(** [float(s)] of a str: [ValueError] when the text is no number. *)
Definition float_of_str (s : string) : result float :=
  match parse_float s with
  | Some x => Ok (SF2Prim x)
  | None => Raise ValueError
  end.

(** ** Arithmetic the program uses *)

(** [v * n] for an int [n]. *)
Definition py_mul_int (v : pyval) (n : Z) : result pyval :=
  match v with
  | PBool b => Ok (PInt (int_of_bool b * n))
  | PInt z => Ok (PInt (z * n))
  | PFloat f => x <- float_of_int n ;; Ok (PFloat (f * x)%float)
  | PStr s => Ok (PStr (repeat_string s (Z.to_nat n)))
  | PList l => Ok (PList (concat (repeat l (Z.to_nat n))))
  | PNone | PDict _ => Raise TypeError
  end.

(** [int(round(v))]: [round] of a number is an int already. *)
Definition py_int_round (v : pyval) : result Z :=
  match v with
  | PBool b => Ok (int_of_bool b)
  | PInt z => Ok z
  | PFloat f => round_float f
  | _ => Raise TypeError
  end.

(** ** The program: [format_timestamp] *)

Definition format_timestamp (seconds : pyval) : result string :=
  x <- py_mul_int seconds 1000 ;;
  millis <- py_int_round x ;;
  let hours := millis / (3600 * 1000) in
  let millis := millis - hours * 3600 * 1000 in
  let minutes := millis / (60 * 1000) in
  let millis := millis - minutes * 60 * 1000 in
  let secs := millis / 1000 in
  let millis := millis - secs * 1000 in
  hh <- format_0d 2 hours ;;
  mm <- format_0d 2 minutes ;;
  ss <- format_0d 2 secs ;;
  mmm <- format_0d 3 millis ;;
  Ok (hh ++ ":" ++ mm ++ ":" ++ ss ++ "," ++ mmm).

(** ** The program: [segments_to_srt] *)

(** The body of the [for] loop: four appends to [lines].  [idx] counts the
    elements of a list, fewer than 2^63 of them, so [str(idx)] is far below
    the digit limit and is its decimal text. *)
Definition srt_loop_body (idx : Z) (seg : pyval) (lines : list string)
  : result (list string) :=
  s <- py_getitem seg "start" ;;
  start <- format_timestamp s ;;
  e <- py_getitem seg "end" ;;
  end_ <- format_timestamp e ;;
  t <- py_get seg "text" (PStr "") ;;
  text <- py_strip t ;;
  let lines := (lines ++ [str_of_int idx])%list in
  let lines := (lines ++ [(start ++ " --> " ++ end_)%string])%list in
  let lines := (lines ++ [text])%list in
  let lines := (lines ++ [""])%list in
  Ok lines.

(** [for idx, seg in enumerate(segments, start=idx)] *)
Fixpoint srt_loop (idx : Z) (segments : list pyval) (lines : list string)
  : result (list string) :=
  match segments with
  | [] => Ok lines
  | seg :: rest =>
      lines' <- srt_loop_body idx seg lines ;;
      srt_loop (idx + 1) rest lines'
  end.

Definition segments_to_srt (segments : list pyval) : result string :=
  lines <- srt_loop 1 segments [] ;;
  Ok (join nl lines).

(** ** The program: normalisation of the model's result
    (the part of [transcribe_audio_whisper] after the call of the model) *)

(** [float(v)] *)
Definition py_float (v : pyval) : result float :=
  match v with
  | PBool b => float_of_int (int_of_bool b)
  | PInt z => float_of_int z
  | PFloat f => Ok f
  | PStr s => float_of_str s
  | _ => Raise TypeError
  end.

Definition isinstance_str (v : pyval) : bool :=
  match v with PStr _ => true | _ => false end.

(** [try: m except ValueError: handler] *)
Definition except_ValueError {A : Type} (m handler : result A) : result A :=
  match m with
  | Raise ValueError => handler
  | _ => m
  end.

Definition segments_candidate (raw : pyval) : list pyval :=
  match raw with
  | PDict d =>
      match dict_lookup d "segments" with
      | Some (PList sc) => sc
      | _ => []
      end
  | _ => []
  end.

Definition safe_duration (duration : pyval) : result float :=
  if isinstance_int_float duration then py_float duration
  else if isinstance_str duration
       then except_ValueError (py_float duration) (Ok 0%float)
       else Ok 0%float.

Definition fallback_fields (raw : pyval) : pyval * pyval :=
  match raw with
  | PDict d =>
      (match dict_lookup d "duration" with Some v => v | None => PFloat 0 end,
       match dict_lookup d "text" with Some v => v | None => PStr "" end)
  | _ => (PFloat 0, PStr "")
  end.

Definition normalize_result (raw : pyval) : result (list pyval) :=
  match segments_candidate raw with
  | [] =>
      let '(duration, text) := fallback_fields raw in
      d <- safe_duration duration ;;
      Ok [PDict [("start", PFloat 0); ("end", PFloat d); ("text", text)]]
  | sc => Ok sc
  end.

(** ** The outside world and the trace monad *)

Inductive event : Type :=
| Print (msg : string)
| PathExists (path : string)
| TempDirCreate (dir : string)
| TempDirCleanup (dir : string)
| CheckCall (cmd : list string)
| ImportWhisper
| LoadModel (name : string)
| Transcribe (name : string) (audio : string)
| WriteFile (path : string) (content : string).

(** What the collaborators answer in one run. *)
Record world : Type := {
  os_path_exists : string -> bool;
  os_path_splitext_root : string -> string;
  os_path_join : string -> string -> string;
  tempdir : string;
  subprocess_check_call : list string -> result unit;
  whisper_import : result unit;
  whisper_load_model : string -> result unit;
  whisper_transcribe : string -> string -> result pyval;
  file_write : string -> string -> result unit
}.

Definition io (A : Type) : Type := list event * result A.

Definition ret {A : Type} (a : A) : io A := ([], Ok a).

Definition raise {A : Type} (e : pyexn) : io A := ([], Raise e).

Definition iobind {A B : Type} (m : io A) (k : A -> io B) : io B :=
  match m with
  | (t, Ok a) => let '(t', r) := k a in ((t ++ t')%list, r)
  | (t, Raise e) => (t, Raise e)
  end.

Notation "x <~ m ;; k" := (iobind m (fun x => k))
  (at level 61, m at next level, right associativity).

Definition emit (e : event) : io unit := ([e], Ok tt).

Definition perform {A : Type} (e : event) (r : result A) : io A := ([e], r).

Definition lift {A : Type} (r : result A) : io A := ([], r).

(** [try: m except exn: handler] *)
Definition try_except {A : Type} (m : io A) (catches : pyexn -> bool)
  (handler : io A) : io A :=
  match m with
  | (t, Raise e) =>
      if catches e then let '(t', r) := handler in ((t ++ t')%list, r)
      else (t, Raise e)
  | _ => m
  end.

(** [try: m except Exception: handler; raise] *)
Definition try_except_reraise {A : Type} (m : io A) (handler : io unit)
  : io A :=
  match m with
  | (t, Raise e) =>
      let '(t', r) := handler in
      ((t ++ t')%list, match r with Ok _ => Raise e | Raise e' => Raise e' end)
  | _ => m
  end.

(** [with tempfile.TemporaryDirectory() as tmpdir: body]: the directory is
    removed however the body ends. *)
Definition with_TemporaryDirectory {A : Type} (w : world)
  (body : string -> io A) : io A :=
  let dir := tempdir w in
  let '(t, r) := body dir in
  (([TempDirCreate dir] ++ t ++ [TempDirCleanup dir])%list, r).

Definition is_CalledProcessError (e : pyexn) : bool :=
  match e with CalledProcessError => true | _ => false end.

Definition is_FileNotFoundError (e : pyexn) : bool :=
  match e with FileNotFoundError => true | _ => false end.

(** ** The program: [run_ffmpeg_extract_audio] *)

Definition run_ffmpeg_extract_audio (w : world) (video_path out_audio : string)
  : io unit :=
  let cmd :=
    ["ffmpeg"; "-y"; "-i"; video_path; "-ac"; "1"; "-ar"; "16000"; "-vn";
     out_audio] in
  _ <~ emit (Print ("Running: " ++ join " " cmd)) ;;
  try_except (perform (CheckCall cmd) (subprocess_check_call w cmd))
    is_FileNotFoundError (raise FileNotFoundError).

(** ** The program: [transcribe_audio_whisper] *)

Definition transcribe_audio_whisper (w : world) (audio_path model : string)
  : io (list pyval) :=
  _ <~ try_except_reraise (perform ImportWhisper (whisper_import w))
         (emit (Print "Failed to import whisper.")) ;;
  _ <~ emit (Print ("Loading model '" ++ model
                    ++ "' (this may take a while)...")) ;;
  _ <~ perform (LoadModel model) (whisper_load_model w model) ;;
  _ <~ emit (Print "Transcribing audio...") ;;
  raw <~ perform (Transcribe model audio_path)
           (whisper_transcribe w model audio_path) ;;
  _ <~ match segments_candidate raw with
       | [] => emit (Print
                 "No segments returned by model, creating single-segment output.")
       | _ => ret tt
       end ;;
  lift (normalize_result raw).

(** ** The program: [main], after the arguments are parsed *)

Record Namespace : Type := {
  input : string;
  model : string;
  output : option string
}.

(** [args.output or default]: an empty string is false too. *)
Definition output_or (o : option string) (default : string) : string :=
  match o with
  | Some "" | None => default
  | Some p => p
  end.

Definition main (w : world) (args : Namespace) : io Z :=
  let input_path := input args in
  found <~ perform (PathExists input_path) (Ok (os_path_exists w input_path)) ;;
  if negb found then
    _ <~ emit (Print ("Input file not found: " ++ input_path)) ;;
    ret 2
  else
    let output_srt :=
      output_or (output args) (os_path_splitext_root w input_path ++ ".srt") in
    r <~ with_TemporaryDirectory w (fun tmpdir =>
           let audio_path := os_path_join w tmpdir "audio.wav" in
           early <~ try_except
                      (_ <~ run_ffmpeg_extract_audio w input_path audio_path ;;
                       ret None)
                      is_CalledProcessError
                      (_ <~ emit (Print
                         "ffmpeg failed. Make sure ffmpeg is installed and the input file is valid.") ;;
                       ret (Some 3)) ;;
           match early with
           | Some code => ret (inl code)
           | None =>
               segments <~ transcribe_audio_whisper w audio_path (model args) ;;
               ret (inr segments)
           end) ;;
    match r with
    | inl code => ret code
    | inr segments =>
        srt_text <~ lift (segments_to_srt segments) ;;
        _ <~ perform (WriteFile output_srt srt_text)
               (file_write w output_srt srt_text) ;;
        _ <~ emit (Print ("Wrote SRT to: " ++ output_srt)) ;;
        ret 0
    end.

(** * Specification-side definitions *)

(** Zero padding as the specification words it: the decimal digits of a
    non-negative integer, with zeros in front up to the width. *)
Definition zero_pad (width : nat) (z : Z) : string :=
  repeat_string "0" (width - String.length (str_of_int z)) ++ str_of_int z.

(** The timestamp algorithm of the specification, on the total number of
    milliseconds. *)
Definition timestamp_text (total_milliseconds : Z) : string :=
  let hours := total_milliseconds / 3600000 in
  let remainder := total_milliseconds mod 3600000 in
  let minutes := remainder / 60000 in
  let remainder := remainder mod 60000 in
  let seconds_part := remainder / 1000 in
  let milliseconds := remainder mod 1000 in
  zero_pad 2 hours ++ ":" ++ zero_pad 2 minutes ++ ":"
  ++ zero_pad 2 seconds_part ++ "," ++ zero_pad 3 milliseconds.

(** [t] is an integer nearest to the value of the finite float [f], and the
    even one of the two when [f] lies half way. *)
Definition nearest_even (f : float) (t : Z) : Prop :=
  match Prim2SF f with
  | S754_zero _ => t = 0
  | S754_finite s m e =>
      let v := if s then Z.neg m else Z.pos m in
      if (0 <=? e)%Z then t = v * 2 ^ e
      else
        let d := 2 ^ (- e) in
        2 * Z.abs (t * d - v) <= d
        /\ (2 * Z.abs (t * d - v) = d -> Z.even t = true)
  | _ => False
  end.

(** [t] is [s] without its leading and trailing whitespace: [s] is [t]
    between two runs of whitespace, and [t] neither starts nor ends with a
    whitespace character. *)
Definition no_space_at_head (l : list ascii) : Prop :=
  match l with
  | [] => True
  | c :: _ => py_isspace c = false
  end.

Definition trimmed (s t : string) : Prop :=
  exists pre post : list ascii,
    list_ascii_of_string s
    = (pre ++ list_ascii_of_string t ++ post)%list
    /\ forallb py_isspace pre = true
    /\ forallb py_isspace post = true
    /\ no_space_at_head (list_ascii_of_string t)
    /\ no_space_at_head (rev (list_ascii_of_string t)).

(** A block of the subtitle document, as lines. *)
Definition srt_block (k : Z) (start end_ text : string) : list string :=
  [str_of_int k; start ++ " --> " ++ end_; text; ""].

(** A Segment of the data model: a dict with float [start] and [end] and a
    str [text]. *)
Definition segment_record (seg : pyval) (s e : float) (t : string) : Prop :=
  exists d,
    seg = PDict d
    /\ dict_lookup d "start" = Some (PFloat s)
    /\ dict_lookup d "end" = Some (PFloat e)
    /\ dict_lookup d "text" = Some (PStr t).

(** [block] is the block of the segment record [seg] at index [k]. *)
Definition block_of_record (k : Z) (seg : pyval) (block : list string) : Prop :=
  exists s e t ts te text,
    segment_record seg s e t
    /\ format_timestamp (PFloat s) = Ok ts
    /\ format_timestamp (PFloat e) = Ok te
    /\ trimmed t text
    /\ block = srt_block k ts te text.

(** The lines one turn of the loop of [segments_to_srt] appends. *)
Definition srt_entry (idx : Z) (seg : pyval) : result (list string) :=
  s <- py_getitem seg "start" ;;
  start <- format_timestamp s ;;
  e <- py_getitem seg "end" ;;
  end_ <- format_timestamp e ;;
  t <- py_get seg "text" (PStr "") ;;
  text <- py_strip t ;;
  Ok (srt_block idx start end_ text).

(** [blocks] are the entries of [segments], numbered from [k]. *)
Inductive entries_from : Z -> list pyval -> list (list string) -> Prop :=
| entries_nil (k : Z) : entries_from k [] []
| entries_cons (k : Z) (seg : pyval) (segments : list pyval)
    (b : list string) (blocks : list (list string)) :
    srt_entry k seg = Ok b ->
    entries_from (k + 1) segments blocks ->
    entries_from k (seg :: segments) (b :: blocks).

(** A number of seconds [format_timestamp] renders: a bool, an int whose
    hours field is within the digit limit, or a float whose product by 1000
    is finite. *)
Definition renderable_seconds (v : pyval) : bool :=
  match v with
  | PBool _ => true
  | PInt z => negb (exceeds_str_digits (z * 1000 / 3600000))
  | PFloat f => float_is_finite (f * 1000)
  | _ => false
  end.

(** The files a run writes, and its calls of the two collaborators. *)
Fixpoint file_writes (t : list event) : list (string * string) :=
  match t with
  | [] => []
  | WriteFile path content :: t' => (path, content) :: file_writes t'
  | _ :: t' => file_writes t'
  end.

Definition is_external_call (e : event) : bool :=
  match e with
  | CheckCall _ | ImportWhisper | LoadModel _ | Transcribe _ _ => true
  | _ => false
  end.

Definition external_calls (t : list event) : list event :=
  filter is_external_call t.

(** The command [run_ffmpeg_extract_audio] builds, and the audio path [main]
    gives it. *)
Definition ffmpeg_command (video_path out_audio : string) : list string :=
  ["ffmpeg"; "-y"; "-i"; video_path; "-ac"; "1"; "-ar"; "16000"; "-vn";
   out_audio].

Definition audio_path (w : world) : string :=
  os_path_join w (tempdir w) "audio.wav".

(** The path [main] writes to. *)
Definition output_srt (w : world) (args : Namespace) : string :=
  output_or (output args) (os_path_splitext_root w (input args) ++ ".srt").

(** The segment of the first end-to-end scenario. *)
Definition hello_segment : pyval :=
  PDict [("start", PFloat 0); ("end", PFloat 5); ("text", PStr " hello ")].

(** A world for examples: [found] tells whether the input exists, the
    other fields are the outcomes of the media tool, of loading the model and
    of the transcription; the import and the write succeed. *)
Definition example_world (found : bool) (tool load : result unit)
  (answer : result pyval) : world :=
  {| os_path_exists := fun _ => found;
     os_path_splitext_root := fun p => "talk";
     os_path_join := fun dir name => dir ++ "/" ++ name;
     tempdir := "/tmp/tmpdir";
     subprocess_check_call := fun _ => tool;
     whisper_import := Ok tt;
     whisper_load_model := fun _ => load;
     whisper_transcribe := fun _ _ => answer;
     file_write := fun _ _ => Ok tt |}.

Definition example_args : Namespace :=
  {| input := "talk.mp4"; model := "small"; output := None |}.

(** The raw result has no usable "segments": it is no dict, or the field is
    missing, an empty list, or no list. *)
Definition no_usable_segments (raw : pyval) : Prop :=
  match raw with
  | PDict d =>
      match dict_lookup d "segments" with
      | Some (PList (_ :: _)) => False
      | _ => True
      end
  | _ => True
  end.

(** A field of the raw result: absent when the result is no dict. *)
Definition raw_field (raw : pyval) (key : string) : option pyval :=
  match raw with
  | PDict d => dict_lookup d key
  | _ => None
  end.

(** The text of the fallback segment as the specification words it. *)
Definition spec_text (raw : pyval) : pyval :=
  match raw_field raw "text" with
  | Some v => v
  | None => PStr ""
  end.

(** The duration coercion as the specification words it: an int or a float
    is taken as a number (an int as the nearest double, and [None] here when
    there is none), a str that parses as a float is parsed, and anything else
    is 0.0. *)
Definition spec_duration (field : option pyval) : option float :=
  match field with
  | Some (PInt z) =>
      match float_of_int z with Ok f => Some f | Raise _ => None end
  | Some (PBool b) => Some (if b then 1%float else 0%float)
  | Some (PFloat f) => Some f
  | Some (PStr s) =>
      match parse_float s with
      | Some x => Some (SF2Prim x)
      | None => Some 0%float
      end
  | _ => Some 0%float
  end.

Definition fallback_segment (d : float) (text : pyval) : pyval :=
  PDict [("start", PFloat 0); ("end", PFloat d); ("text", text)].

(** A segment the formatter renders: a dict whose "start" and "end" are
    numbers [format_timestamp] renders and whose "text" is absent or a
    str. *)
Definition renderable_segment (seg : pyval) : Prop :=
  exists d vs ve,
    seg = PDict d
    /\ dict_lookup d "start" = Some vs /\ renderable_seconds vs = true
    /\ dict_lookup d "end" = Some ve /\ renderable_seconds ve = true
    /\ (dict_lookup d "text" = None
        \/ exists t, dict_lookup d "text" = Some (PStr t)).

Definition lacks_text (seg : pyval) : Prop :=
  exists d, seg = PDict d /\ dict_lookup d "text" = None.

(** The duration field is a negative number: a negative float, a negative
    int whose nearest double is [d], or a str whose value as a float is the
    negative [d]. *)
Definition negative_duration (field : option pyval) (d : float) : Prop :=
  match field with
  | Some (PFloat f) => d = f /\ (f <? 0)%float = true
  | Some (PInt z) => z < 0 /\ float_of_int z = Ok d
  | Some (PStr s) => float_of_str s = Ok d /\ (d <? 0)%float = true
  | _ => False
  end.

(** [int(round(seconds * 1000))], the first statement of
    [format_timestamp]. *)
Definition total_milliseconds (seconds : pyval) : result Z :=
  x <- py_mul_int seconds 1000 ;; py_int_round x.

(** The text of a timestamp with the given fields, as the f-string of
    [format_timestamp] lays it out. *)
Definition timestamp_fields (hours minutes secs millis : Z) : string :=
  format_0d_text 2 hours ++ ":" ++ format_0d_text 2 minutes ++ ":"
  ++ format_0d_text 2 secs ++ "," ++ format_0d_text 3 millis.

Definition all_space (s : string) : bool :=
  forallb py_isspace (list_ascii_of_string s).

(** The two diagnostics of [transcribe_audio_whisper]. *)
Definition msg_import_failed : string := "Failed to import whisper.".

Definition msg_no_segments : string :=
  "No segments returned by model, creating single-segment output.".

(** What [main] returns or raises, as the composition of its stages. *)
Definition main_outcome (w : world) (args : Namespace) : result Z :=
  if os_path_exists w (input args) then
    match subprocess_check_call w
            (ffmpeg_command (input args) (audio_path w)) with
    | Raise CalledProcessError => Ok 3
    | Raise e => Raise e
    | Ok _ =>
        segments <- snd (transcribe_audio_whisper w (audio_path w)
                           (model args)) ;;
        srt_text <- segments_to_srt segments ;;
        _ <- file_write w (output_srt w args) srt_text ;;
        Ok 0
    end
  else Ok 2.

(** Unfolding the driver and splitting on what the world answers. *)
Ltac unfold_driver :=
  unfold main, with_TemporaryDirectory, run_ffmpeg_extract_audio,
    transcribe_audio_whisper, try_except, try_except_reraise, perform, emit,
    raise, lift, ret, iobind.

Ltac split_world :=
  repeat
    (cbn [negb bind fst snd app is_CalledProcessError is_FileNotFoundError];
     match goal with
     | |- context [os_path_exists ?w ?p] =>
         destruct (os_path_exists w p) eqn:?
     | |- context [subprocess_check_call ?w ?c] =>
         destruct (subprocess_check_call w c) as [[]|[]] eqn:?
     | |- context [whisper_import ?w] =>
         destruct (whisper_import w) as [[]|] eqn:?
     | |- context [whisper_load_model ?w ?n] =>
         destruct (whisper_load_model w n) as [[]|] eqn:?
     | |- context [whisper_transcribe ?w ?n ?a] =>
         destruct (whisper_transcribe w n a) eqn:?
     | |- context [segments_candidate ?r] =>
         destruct (segments_candidate r) eqn:?
     | |- context [normalize_result ?r] =>
         destruct (normalize_result r) eqn:?
     | |- context [segments_to_srt ?x] =>
         destruct (segments_to_srt x) eqn:?
     | |- context [file_write ?w ?p ?t] =>
         destruct (file_write w p t) as [[]|] eqn:?
     end).

(** The events before and after the first removal of a temporary
    directory. *)
Fixpoint until_cleanup (t : list event) : list event :=
  match t with
  | [] => []
  | TempDirCleanup _ :: _ => []
  | e :: t' => e :: until_cleanup t'
  end.

Fixpoint after_cleanup (t : list event) : list event :=
  match t with
  | [] => []
  | TempDirCleanup _ :: t' => t'
  | _ :: t' => after_cleanup t'
  end.

Definition is_tempdir_event (e : event) : bool :=
  match e with
  | TempDirCreate _ | TempDirCleanup _ => true
  | _ => false
  end.

(** * Lemmas on the runtime model *)

Lemma bounded_check (P : Z -> bool) (n : nat) :
  forallb P (map Z.of_nat (seq 0 n)) = true ->
  forall z, 0 <= z < Z.of_nat n -> P z = true.
Proof.
  intros H z Hz.
  rewrite forallb_forall in H. apply H.
  apply in_map_iff. exists (Z.to_nat z). split; [lia|].
  apply in_seq. lia.
Qed.

Lemma length_repeat_string_0 (n : nat) :
  String.length (repeat_string "0" n) = n.
Proof. induction n as [|n IH]; simpl; [reflexivity | now rewrite IH]. Qed.

Lemma length_append (a b : string) :
  String.length (a ++ b) = (String.length a + String.length b)%nat.
Proof. induction a as [|c a IH]; simpl; [reflexivity | now rewrite IH]. Qed.

Lemma zero_pad_length_ge (w : nat) (z : Z) :
  (w <= String.length (zero_pad w z))%nat.
Proof.
  unfold zero_pad. rewrite length_append, length_repeat_string_0. lia.
Qed.

Lemma zero_pad_2_length (z : Z) :
  0 <= z < 100 -> String.length (zero_pad 2 z) = 2%nat.
Proof.
  intros Hz.
  apply Nat.eqb_eq.
  apply (bounded_check (fun z => String.length (zero_pad 2 z) =? 2)%nat 100);
    [vm_compute; reflexivity | exact Hz].
Qed.

Lemma zero_pad_3_length (z : Z) :
  0 <= z < 1000 -> String.length (zero_pad 3 z) = 3%nat.
Proof.
  intros Hz.
  apply Nat.eqb_eq.
  apply (bounded_check (fun z => String.length (zero_pad 3 z) =? 3)%nat 1000);
    [vm_compute; reflexivity | exact Hz].
Qed.

(** * The nearest double of an int *)

Lemma digits2_pos_bounds (p : positive) :
  2 ^ (Z.pos (digits2_pos p) - 1) <= Z.pos p < 2 ^ Z.pos (digits2_pos p).
Proof.
  induction p as [p IH|p IH|]; cbn [digits2_pos].
  - rewrite Pos2Z.inj_succ.
    replace (Z.succ (Z.pos (digits2_pos p)) - 1)
      with (Z.succ (Z.pos (digits2_pos p) - 1)) by lia.
    rewrite !Z.pow_succ_r by lia. lia.
  - rewrite Pos2Z.inj_succ.
    replace (Z.succ (Z.pos (digits2_pos p)) - 1)
      with (Z.succ (Z.pos (digits2_pos p) - 1)) by lia.
    rewrite !Z.pow_succ_r by lia. lia.
  - cbn. lia.
Qed.

Lemma digits2_pos_unique (m : positive) (k : Z) :
  2 ^ (k - 1) <= Z.pos m < 2 ^ k -> Z.pos (digits2_pos m) = k.
Proof.
  intros [Hlo Hhi].
  pose proof (digits2_pos_bounds m) as [Blo Bhi].
  set (d := Z.pos (digits2_pos m)) in *.
  assert (0 < k).
  { destruct (Z.lt_trichotomy 0 k) as [?|[<-|Hk]]; [assumption|cbn in Hhi; lia|].
    rewrite Z.pow_neg_r in Hhi by lia. lia. }
  destruct (Z.lt_trichotomy d k) as [Hlt|[Heq|Hgt]]; [|assumption|].
  - assert (2 ^ d <= 2 ^ (k - 1)) by (apply Z.pow_le_mono_r; lia). lia.
  - assert (2 ^ k <= 2 ^ (d - 1)) by (apply Z.pow_le_mono_r; lia). lia.
Qed.

Lemma digits2_pos_iter_xO (p k : positive) :
  digits2_pos (Pos.iter xO p k) = (digits2_pos p + k)%positive.
Proof.
  revert p. induction k as [|k IH] using Pos.peano_ind; intros p.
  - cbn. lia.
  - rewrite Pos.iter_succ. cbn [digits2_pos]. rewrite IH. lia.
Qed.

Lemma shr_m_shr_1 (r : shr_record) :
  0 <= shr_m r -> shr_m (shr_1 r) = shr_m r / 2.
Proof.
  destruct r as [m rb sb]. cbn [shr_m]. intros Hm.
  destruct m as [|[p|p|]|p]; cbn [shr_1 shr_m]; try lia.
  - reflexivity.
  - rewrite Pos2Z.inj_xI. apply Z.div_unique with (r := 1); lia.
  - rewrite Pos2Z.inj_xO. apply Z.div_unique with (r := 0); lia.
  - reflexivity.
Qed.

Lemma shr_m_iter_pos (n : positive) (r : shr_record) :
  0 <= shr_m r -> shr_m (iter_pos shr_1 n r) = shr_m r / 2 ^ Z.pos n.
Proof.
  revert r. induction n as [n IH|n IH|]; intros r Hr; cbn [iter_pos].
  - assert (H1 : 0 <= shr_m (shr_1 r)).
    { rewrite shr_m_shr_1 by assumption. apply Z.div_pos; lia. }
    assert (H2 : 0 <= shr_m (iter_pos shr_1 n (shr_1 r))).
    { rewrite IH by assumption. apply Z.div_pos; [assumption|]. apply Z.pow_pos_nonneg; lia. }
    rewrite IH, IH, shr_m_shr_1 by assumption.
    rewrite !Z.div_div by (try apply Z.pow_pos_nonneg; lia).
    f_equal. change (Z.pos n~1) with (2 * Z.pos n + 1).
    replace (2 * Z.pos n + 1) with (1 + Z.pos n + Z.pos n) by lia.
    rewrite !Z.pow_add_r by lia. lia.
  - assert (H2 : 0 <= shr_m (iter_pos shr_1 n r)).
    { rewrite IH by assumption. apply Z.div_pos; [assumption|]. apply Z.pow_pos_nonneg; lia. }
    rewrite IH, IH by assumption.
    rewrite !Z.div_div by (try apply Z.pow_pos_nonneg; lia).
    f_equal. change (Z.pos n~0) with (2 * Z.pos n).
    replace (2 * Z.pos n) with (Z.pos n + Z.pos n) by lia.
    rewrite !Z.pow_add_r by lia. lia.
  - rewrite shr_m_shr_1 by assumption. reflexivity.
Qed.

Lemma fexp_53 (e : Z) : -1021 <= e -> fexp prec emax e = e - 53.
Proof. intros He. unfold fexp, emin, prec, emax. lia. Qed.

(** A mantissa that is canonical at its exponent is kept as it is. *)
Lemma binary_round_aux_canonical (s : bool) (m : positive) (e : Z) :
  fexp prec emax (Z.pos (digits2_pos m) + e) = e ->
  binary_round_aux prec emax s (Z.pos m) e loc_Exact
  = if e <=? emax - prec then S754_finite s m e else S754_infinity s.
Proof.
  intros Hc. unfold binary_round_aux, shr_fexp.
  cbn [Zdigits2 shr_record_of_loc]. rewrite Hc, Z.sub_diag.
  cbn [shr shr_m loc_of_shr_record round_nearest_even Zdigits2 shr_record_of_loc].
  rewrite Hc, Z.sub_diag. cbn [shr shr_m]. reflexivity.
Qed.

Lemma round_nearest_even_bounds (m : Z) (l : location) :
  m <= round_nearest_even m l <= m + 1.
Proof.
  unfold round_nearest_even.
  destruct l as [|[| |]]; try destruct (Z.even m); lia.
Qed.

(** The second alignment of [binary_round_aux] on a mantissa of 53 bits, or
    on 2^53. *)
Lemma shr_fexp_rounded (m e : Z) :
  2 ^ 52 <= m <= 2 ^ 53 -> 0 <= e ->
  exists q r e',
    shr_fexp prec emax m e loc_Exact = (r, e')
    /\ shr_m r = Z.pos q
    /\ fexp prec emax (Z.pos (digits2_pos q) + e') = e'.
Proof.
  intros Hm He.
  destruct m as [|q|q]; try (cbn in Hm; lia).
  unfold shr_fexp. cbn [Zdigits2 shr_record_of_loc].
  destruct (Z.eq_dec (Z.pos q) (2 ^ 53)) as [Heq|Hne].
  - injection Heq as ->.
    change (Z.pos (digits2_pos 9007199254740992)) with 54.
    rewrite fexp_53 by lia.
    replace (54 + e - 53 - e) with 1 by lia.
    exists 4503599627370496%positive. eexists. eexists.
    split; [reflexivity|]. split; [reflexivity|].
    change (Z.pos (digits2_pos 4503599627370496)) with 53.
    rewrite fexp_53 by lia. lia.
  - assert (Hd : Z.pos (digits2_pos q) = 53)
      by (apply digits2_pos_unique; change (53 - 1) with 52; lia).
    rewrite Hd, fexp_53 by lia.
    replace (53 + e - 53 - e) with 0 by lia.
    exists q. eexists. eexists.
    split; [reflexivity|]. split; [reflexivity|].
    rewrite Hd, fexp_53 by lia. lia.
Qed.

(** The nearest double of a positive integer is a valid finite float of the
    given sign, or the infinity of that sign. *)
Lemma binary_round_int (s : bool) (p : positive) :
  match binary_round prec emax s p 0 with
  | S754_infinity s' => s' = s
  | S754_finite s' m e => s' = s /\ bounded prec emax m e = true
  | _ => False
  end.
Proof.
  unfold binary_round.
  pose proof (digits2_pos_bounds p) as Hb.
  set (D := Z.pos (digits2_pos p)) in *.
  assert (HD : 1 <= D) by (subst D; lia).
  rewrite fexp_53 by lia.
  unfold shl_align.
  destruct (D + 0 - 53 - 0) as [|n|k] eqn:Hsh.
  - (* 53 bits *)
    rewrite binary_round_aux_canonical by (fold D; rewrite fexp_53; lia).
    change (0 <=? emax - prec) with true. cbv iota.
    split; [reflexivity|].
    unfold bounded, canonical_mantissa. fold D.
    rewrite fexp_53 by lia.
    apply andb_true_intro. split; [apply Z.eqb_eq; lia | reflexivity].
  - (* more than 53 bits *)
    unfold binary_round_aux.
    unfold shr_fexp at 1. cbn [Zdigits2 shr_record_of_loc]. fold D.
    rewrite fexp_53 by lia.
    replace (D + 0 - 53 - 0) with (Z.pos n) by lia.
    cbn [shr].
    set (r1 := iter_pos shr_1 n _).
    assert (Hm1 : shr_m r1 = Z.pos p / 2 ^ Z.pos n).
    { subst r1. rewrite shr_m_iter_pos; cbn [shr_m]; [reflexivity | lia]. }
    assert (Hpow : 2 ^ D = 2 ^ 53 * 2 ^ Z.pos n).
    { rewrite <- Z.pow_add_r by lia. f_equal. lia. }
    assert (Hpow' : 2 ^ (D - 1) = 2 ^ 52 * 2 ^ Z.pos n).
    { rewrite <- Z.pow_add_r by lia. f_equal. lia. }
    assert (Hn : 0 < 2 ^ Z.pos n) by (apply Z.pow_pos_nonneg; lia).
    assert (Hb1 : 2 ^ 52 <= shr_m r1 < 2 ^ 53).
    { rewrite Hm1. split.
      - apply Z.div_le_lower_bound; lia.
      - apply Z.div_lt_upper_bound; lia. }
    pose proof (round_nearest_even_bounds (shr_m r1) (loc_of_shr_record r1))
      as Hb2.
    destruct (shr_fexp_rounded
                (round_nearest_even (shr_m r1) (loc_of_shr_record r1))
                (0 + Z.pos n)) as [q [r [e' [Hs [Hq Hc]]]]]; [lia | lia |].
    rewrite Hs, Hq.
    destruct (Z.leb_spec e' (emax - prec)) as [Hle|Hgt]; [|reflexivity].
    split; [reflexivity|].
    unfold bounded, canonical_mantissa. rewrite Hc.
    apply andb_true_intro. split; [apply Z.eqb_refl | now apply Z.leb_le].
  - (* fewer than 53 bits *)
    assert (Hd : Z.pos (digits2_pos (Pos.iter xO p k)) + (D + 0 - 53) = D).
    { rewrite digits2_pos_iter_xO, Pos2Z.inj_add. fold D. lia. }
    rewrite binary_round_aux_canonical by (rewrite Hd, fexp_53; lia).
    destruct (Z.leb_spec (D + 0 - 53) (emax - prec)) as [_|Hgt];
      [|unfold emax, prec in Hgt; lia].
    split; [reflexivity|].
    unfold bounded, canonical_mantissa. rewrite Hd, fexp_53 by lia.
    apply andb_true_intro.
    split; [apply Z.eqb_eq; lia | apply Z.leb_le; unfold emax, prec; lia].
Qed.

Lemma float_of_int_negative (z : Z) (d : float) :
  z < 0 -> float_of_int z = Ok d -> (d <? 0)%float = true.
Proof.
  intros Hz. unfold float_of_int.
  destruct z as [|p|p]; try lia.
  cbn [binary_normalize].
  pose proof (binary_round_int true p) as Hx.
  destruct (binary_round prec emax true p 0) as [s|s| |s m e];
    cbn [SF_is_finite]; try discriminate; try contradiction.
  destruct Hx as [-> Hb].
  intros Hd.
  assert (Hd' : d = SF2Prim (S754_finite true m e)) by congruence.
  rewrite Hd', ltb_spec, Prim2SF_SF2Prim by exact Hb.
  reflexivity.
Qed.

(** ** The digit limit and the fields of a timestamp *)

Lemma int_str_limit_eq : int_str_limit = 10 ^ 4300.
Proof. vm_compute. reflexivity. Qed.

Lemma int_str_limit_above : 2 ^ 1024 < int_str_limit.
Proof. vm_compute. reflexivity. Qed.

Lemma exceeds_str_digits_small (z : Z) :
  Z.abs z <= 2 ^ 1024 -> exceeds_str_digits z = false.
Proof.
  intros Hz. unfold exceeds_str_digits. apply Z.leb_gt.
  eapply Z.le_lt_trans; [exact Hz | exact int_str_limit_above].
Qed.

(** The index of a list is never refused. *)
Lemma index_within_limit (k : Z) :
  0 <= k <= 2 ^ 63 -> exceeds_str_digits k = false.
Proof.
  intros Hk. apply exceeds_str_digits_small.
  assert (H : 2 ^ 63 <= 2 ^ 1024) by (apply Z.leb_le; reflexivity).
  rewrite Z.abs_eq by lia. apply Z.le_trans with (2 ^ 63); [lia | exact H].
Qed.

Lemma thousand_small (z : Z) : 0 <= z < 1000 -> Z.abs z <= 2 ^ 1024.
Proof.
  intros Hz. assert (H : 1000 <= 2 ^ 1024) by (apply Z.leb_le; reflexivity).
  rewrite Z.abs_eq by lia. apply Z.le_trans with 1000; [lia | exact H].
Qed.

Lemma format_0d_small (w : nat) (z : Z) :
  Z.abs z <= 2 ^ 1024 -> format_0d w z = Ok (format_0d_text w z).
Proof.
  intros Hz. unfold format_0d. now rewrite exceeds_str_digits_small.
Qed.

Lemma format_0d_text_nonneg (w : nat) (z : Z) :
  0 <= z -> format_0d_text w z = zero_pad w z.
Proof.
  intros Hz. unfold format_0d_text, zero_pad.
  destruct (Z.ltb_spec z 0); [lia | reflexivity].
Qed.

Lemma format_0d_text_negative (w : nat) (z : Z) :
  z < 0 -> exists rest, format_0d_text w z = "-" ++ rest.
Proof.
  intros Hz. unfold format_0d_text.
  destruct (Z.ltb_spec z 0); [|lia]. eauto.
Qed.

Lemma div_abs_le (t : Z) : Z.abs (t / 3600000) <= Z.abs t.
Proof.
  destruct (Z.le_gt_cases 0 t) as [Hpos|Hneg].
  - assert (0 <= t / 3600000) by (apply Z.div_pos; lia).
    assert (t / 3600000 <= t) by (apply Z.div_le_upper_bound; lia).
    lia.
  - assert (t <= t / 3600000) by (apply Z.div_le_lower_bound; lia).
    assert (t / 3600000 < 0) by (apply Z.div_lt_upper_bound; lia).
    lia.
Qed.

(** The subtractions of [format_timestamp] compute the remainders of the
    total; only the hours can reach the digit limit. *)
Lemma format_timestamp_total (v : pyval) (total : Z) :
  total_milliseconds v = Ok total ->
  let hours := total / 3600000 in
  let minutes := total mod 3600000 / 60000 in
  let secs := total mod 3600000 mod 60000 / 1000 in
  let millis := total mod 3600000 mod 60000 mod 1000 in
  format_timestamp v
  = if exceeds_str_digits hours then Raise ValueError
    else Ok (timestamp_fields hours minutes secs millis).
Proof.
  unfold total_milliseconds, format_timestamp, timestamp_fields.
  destruct (py_mul_int v 1000) as [x|]; cbn [bind]; [|discriminate].
  intros ->. cbn [bind]. cbv zeta.
  change (3600 * 1000) with 3600000. change (60 * 1000) with 60000.
  set (hours := total / 3600000).
  assert (E1 : total - hours * 3600 * 1000 = total mod 3600000).
  { subst hours. pose proof (Z.div_mod total 3600000). lia. }
  rewrite E1.
  set (r1 := total mod 3600000).
  assert (E2 : r1 - r1 / 60000 * 60 * 1000 = r1 mod 60000).
  { pose proof (Z.div_mod r1 60000). lia. }
  rewrite E2.
  set (r2 := r1 mod 60000).
  assert (E3 : r2 - r2 / 1000 * 1000 = r2 mod 1000).
  { pose proof (Z.div_mod r2 1000). lia. }
  rewrite E3.
  assert (H1 : 0 <= r1 < 3600000) by (subst r1; apply Z.mod_pos_bound; lia).
  assert (H2 : 0 <= r2 < 60000) by (subst r2; apply Z.mod_pos_bound; lia).
  assert (H3 : 0 <= r2 mod 1000 < 1000) by (apply Z.mod_pos_bound; lia).
  assert (H4 : 0 <= r1 / 60000 < 1000).
  { split; [apply Z.div_pos; lia | apply Z.div_lt_upper_bound; lia]. }
  assert (H5 : 0 <= r2 / 1000 < 1000).
  { split; [apply Z.div_pos; lia | apply Z.div_lt_upper_bound; lia]. }
  rewrite (format_0d_small 2 (r1 / 60000)) by (apply thousand_small; exact H4).
  rewrite (format_0d_small 2 (r2 / 1000)) by (apply thousand_small; exact H5).
  rewrite (format_0d_small 3 (r2 mod 1000))
    by (apply thousand_small; exact H3).
  unfold format_0d. destruct (exceeds_str_digits hours); reflexivity.
Qed.

(** For a non-negative total within the digit limit the text is the one of
    the specification. *)
Lemma format_timestamp_fields (v x : pyval) (total : Z) :
  py_mul_int v 1000 = Ok x ->
  py_int_round x = Ok total ->
  0 <= total ->
  exceeds_str_digits (total / 3600000) = false ->
  format_timestamp v = Ok (timestamp_text total).
Proof.
  intros Hmul Hround Hpos Hlim.
  assert (Ht : total_milliseconds v = Ok total).
  { unfold total_milliseconds. rewrite Hmul. exact Hround. }
  rewrite (format_timestamp_total v total Ht). cbv zeta. rewrite Hlim.
  unfold timestamp_fields, timestamp_text. cbv zeta.
  set (r1 := total mod 3600000).
  set (r2 := r1 mod 60000).
  assert (0 <= total / 3600000) by (apply Z.div_pos; lia).
  assert (0 <= r1 < 3600000) by (subst r1; apply Z.mod_pos_bound; lia).
  assert (0 <= r2 < 60000) by (subst r2; apply Z.mod_pos_bound; lia).
  assert (0 <= r1 / 60000) by (apply Z.div_pos; lia).
  assert (0 <= r2 / 1000) by (apply Z.div_pos; lia).
  assert (0 <= r2 mod 1000 < 1000) by (apply Z.mod_pos_bound; lia).
  rewrite !format_0d_text_nonneg by lia.
  reflexivity.
Qed.

(** ** Rounding a float to an int *)

Lemma pow2_pos (e : Z) : 0 < 2 ^ e \/ (e < 0 /\ 2 ^ e = 0).
Proof.
  destruct (Z.neg_nonneg_cases e) as [He|He].
  - right. split; [exact He | now apply Z.pow_neg_r].
  - left. apply Z.pow_pos_nonneg; lia.
Qed.

Lemma round_half_even_nonneg (m : positive) (e : Z) :
  0 <= round_half_even m e.
Proof.
  unfold round_half_even.
  destruct (Z.leb_spec 0 e) as [He|He].
  - apply Z.mul_nonneg_nonneg; [lia | apply Z.pow_nonneg; lia].
  - assert (Hd : 0 < 2 ^ (- e)) by (apply Z.pow_pos_nonneg; lia).
    assert (Hq : 0 <= Z.pos m / 2 ^ (- e)) by (apply Z.div_pos; lia).
    cbv zeta.
    destruct (2 * (Z.pos m mod 2 ^ (- e)) ?= 2 ^ (- e));
      [destruct (Z.even _) | |]; lia.
Qed.

Lemma round_half_even_nearest (m : positive) (e : Z) :
  e < 0 ->
  let d := 2 ^ (- e) in
  let t := round_half_even m e in
  2 * Z.abs (t * d - Z.pos m) <= d
  /\ (2 * Z.abs (t * d - Z.pos m) = d -> Z.even t = true).
Proof.
  intros He d t. subst t. unfold round_half_even.
  destruct (Z.leb_spec 0 e) as [He'|_]; [lia|].
  fold d. cbv zeta.
  assert (Hd : 0 < d) by (apply Z.pow_pos_nonneg; lia).
  pose proof (Z.div_mod (Z.pos m) d ltac:(lia)) as Hdm.
  pose proof (Z.mod_pos_bound (Z.pos m) d Hd) as Hr.
  set (q := Z.pos m / d) in *. set (r := Z.pos m mod d) in *.
  assert (Hqd : q * d = Z.pos m - r) by lia.
  destruct (Z.compare_spec (2 * r) d) as [Heq|Hlt|Hgt].
  - destruct (Z.even q) eqn:Hev.
    + rewrite Hqd. split; [lia | auto].
    + replace ((q + 1) * d) with (Z.pos m - r + d) by lia.
      split; [lia|]. intros _.
      rewrite Z.even_add, Hev. reflexivity.
  - rewrite Hqd. split; lia.
  - replace ((q + 1) * d) with (Z.pos m - r + d) by lia. split; lia.
Qed.

Lemma round_float_nearest (f : float) (t : Z) :
  round_float f = Ok t -> nearest_even f t.
Proof.
  unfold round_float, nearest_even.
  destruct (Prim2SF f) as [s|s| |s m e]; try discriminate.
  - intros [= <-]. reflexivity.
  - intros [= <-]. cbv zeta.
    destruct (Z.leb_spec 0 e) as [He|He].
    + unfold round_half_even.
      destruct (Z.leb_spec 0 e) as [_|He']; [|lia].
      destruct s; lia.
    + pose proof (round_half_even_nearest m e He) as [Hn Ht].
      cbv zeta in Hn, Ht.
      set (r := round_half_even m e) in *. set (d := 2 ^ (- e)) in *.
      destruct s.
      * replace (- r * d - Z.neg m) with (- (r * d - Z.pos m)) by lia.
        rewrite Z.abs_opp, Z.even_opp. auto.
      * auto.
Qed.

Lemma round_float_finite (f : float) :
  float_is_finite f = true -> exists t, round_float f = Ok t.
Proof.
  unfold float_is_finite, round_float.
  destruct (Prim2SF f); simpl; try discriminate; eauto.
Qed.

(** ** The size of a rounded float *)

Lemma bounded_mantissa (m : positive) (e : Z) :
  bounded prec emax m e = true -> Z.pos m < 2 ^ 53 /\ e <= 971.
Proof.
  unfold bounded, canonical_mantissa. intros H.
  apply andb_prop in H. destruct H as [Hc He].
  apply Z.eqb_eq in Hc. apply Z.leb_le in He.
  unfold fexp, emin, prec, emax in *.
  pose proof (digits2_pos_bounds m) as [_ Hhi].
  set (D := Z.pos (digits2_pos m)) in *.
  assert (HD : D <= 53) by lia.
  split; [|lia].
  eapply Z.lt_le_trans; [exact Hhi|]. apply Z.pow_le_mono_r; lia.
Qed.

Lemma round_half_even_bound (m : positive) (e : Z) :
  Z.pos m < 2 ^ 53 -> e <= 971 -> round_half_even m e <= 2 ^ 1024.
Proof.
  intros Hm He. unfold round_half_even.
  assert (H53 : 2 ^ 53 + 1 <= 2 ^ 1024) by (apply Z.leb_le; reflexivity).
  destruct (Z.leb_spec 0 e) as [Hpos|Hneg].
  - assert (Hle : 2 ^ e <= 2 ^ 971) by (apply Z.pow_le_mono_r; lia).
    assert (Hp : 0 < 2 ^ e) by (apply Z.pow_pos_nonneg; lia).
    replace (2 ^ 1024) with (2 ^ 53 * 2 ^ 971)
      by (rewrite <- Z.pow_add_r by lia; reflexivity).
    apply Z.mul_le_mono_nonneg; lia.
  - cbv zeta.
    assert (Hd : 0 < 2 ^ (- e)) by (apply Z.pow_pos_nonneg; lia).
    assert (Hq : Z.pos m / 2 ^ (- e) <= Z.pos m)
      by (apply Z.div_le_upper_bound; nia).
    destruct (2 * (Z.pos m mod 2 ^ (- e)) ?= 2 ^ (- e));
      [destruct (Z.even _) | |]; lia.
Qed.

Lemma round_float_bound (f : float) (t : Z) :
  round_float f = Ok t -> Z.abs t <= 2 ^ 1024.
Proof.
  unfold round_float. pose proof (Prim2SF_valid f) as Hv.
  destruct (Prim2SF f) as [s|s| |s m e]; try discriminate.
  - intros [= <-]. apply Z.pow_nonneg. lia.
  - cbn [valid_binary] in Hv.
    destruct (bounded_mantissa m e Hv) as [Hm He].
    pose proof (round_half_even_nonneg m e).
    pose proof (round_half_even_bound m e Hm He).
    intros [= <-]. destruct s; lia.
Qed.

Lemma round_float_within_limit (f : float) (t : Z) :
  round_float f = Ok t -> exceeds_str_digits (t / 3600000) = false.
Proof.
  intros H. apply exceeds_str_digits_small.
  apply Z.le_trans with (Z.abs t); [apply div_abs_le|].
  now apply round_float_bound with f.
Qed.

(** ** The sign of a product by 1000 *)

Lemma float_of_int_1000 : float_of_int 1000 = Ok 1000%float.
Proof. vm_compute. reflexivity. Qed.

Lemma binary_round_aux_sign (sx : bool) (mx ex : Z) (lx : location) :
  match binary_round_aux prec emax sx mx ex lx with
  | S754_zero s | S754_infinity s | S754_finite s _ _ => s = sx
  | S754_nan => True
  end.
Proof.
  unfold binary_round_aux.
  destruct (shr_fexp prec emax mx ex lx) as [mrs' e'].
  destruct (shr_fexp prec emax _ e' loc_Exact) as [mrs'' e''].
  destruct (shr_m mrs''); auto.
  destruct (Z.leb _ _); auto.
Qed.

Lemma leb_zero_sign (f : float) :
  (0 <=? f)%float = true ->
  match Prim2SF f with
  | S754_zero _ => True
  | S754_infinity s | S754_finite s _ _ => s = false
  | S754_nan => False
  end.
Proof.
  rewrite leb_spec.
  change (Prim2SF 0) with (S754_zero false).
  unfold SFleb, SFcompare.
  destruct (Prim2SF f) as [s|s| |s m e]; try destruct s;
    auto; discriminate.
Qed.

Lemma round_float_mul_1000_nonneg (f : float) (t : Z) :
  (0 <=? f)%float = true ->
  round_float (f * 1000)%float = Ok t ->
  0 <= t.
Proof.
  intros Hf. apply leb_zero_sign in Hf.
  unfold round_float. rewrite mul_spec.
  change (Prim2SF 1000) with (S754_finite false 8796093022208000 (-43)).
  unfold SF64mul, SFmul.
  destruct (Prim2SF f) as [s|s| |s m e]; try discriminate.
  - intros [= <-]. lia.
  - subst s. cbn [xorb].
    pose proof (binary_round_aux_sign false
                  (Z.pos (m * 8796093022208000)) (e + -43) loc_Exact) as Hs.
    destruct (binary_round_aux _ _ _ _ _ _) as [s'|s'| |s' m' e'];
      try discriminate.
    + intros [= <-]. lia.
    + subst s'. intros [= <-]. apply round_half_even_nonneg.
Qed.

(** * Timestamps *)

Set Warnings "-inexact-float".

(** C1, counterexample: 2^1020 seconds is a non-negative finite float, its
    product by 1000 overflows to infinity, and [round] of infinity raises
    OverflowError, so [format_timestamp] returns no string there. *)
Lemma format_timestamp_overflow :
  (0 <=? 0x1p1020)%float = true
  /\ float_is_finite 0x1p1020 = true
  /\ format_timestamp (PFloat 0x1p1020) = Raise OverflowError.
Proof. vm_compute. auto. Qed.

(** An int of 4401 digits is refused: the hours field is beyond the digit
    limit and the [d] format raises ValueError. *)
Lemma format_timestamp_digit_limit :
  format_timestamp (PInt (10 ^ 4400)) = Raise ValueError.
Proof. vm_compute. reflexivity. Qed.

(** C1, amended: for every non-negative float [f] whose product by 1000 is
    finite, [format_timestamp] returns the text of the timestamp algorithm on
    [total = round(f * 1000)], an integer nearest to the float product (ties
    to even) and non-negative; for a non-negative int [z] whose hours field
    has at most 4300 digits the total is [z * 1000].  In that text hours is
    [total div 3600000], never wrapped and at least two characters wide,
    minutes and seconds have exactly two characters and milliseconds three.
    The four sample values of the specification hold. *)
Theorem format_timestamp_spec :
  (forall f : float,
      (0 <=? f)%float = true ->
      float_is_finite (f * 1000) = true ->
      exists total,
        round_float (f * 1000) = Ok total
        /\ nearest_even (f * 1000) total
        /\ 0 <= total
        /\ format_timestamp (PFloat f) = Ok (timestamp_text total))
  /\ (forall z : Z,
         0 <= z ->
         exceeds_str_digits (z * 1000 / 3600000) = false ->
         format_timestamp (PInt z) = Ok (timestamp_text (z * 1000)))
  /\ (forall total : Z,
         0 <= total ->
         let remainder := total mod 3600000 in
         0 <= total / 3600000
         /\ (2 <= String.length (zero_pad 2 (total / 3600000)))%nat
         /\ 0 <= remainder / 60000 < 60
         /\ String.length (zero_pad 2 (remainder / 60000)) = 2%nat
         /\ 0 <= remainder mod 60000 / 1000 < 60
         /\ String.length (zero_pad 2 (remainder mod 60000 / 1000)) = 2%nat
         /\ 0 <= remainder mod 60000 mod 1000 < 1000
         /\ String.length (zero_pad 3 (remainder mod 60000 mod 1000)) = 3%nat)
  /\ format_timestamp (PInt 0) = Ok "00:00:00,000"
  /\ format_timestamp (PFloat 0) = Ok "00:00:00,000"
  /\ format_timestamp (PFloat 61.5) = Ok "00:01:01,500"
  /\ format_timestamp (PFloat 3661.999) = Ok "01:01:01,999"
  /\ format_timestamp (PInt 90000) = Ok "25:00:00,000"
  /\ format_timestamp (PFloat 90000) = Ok "25:00:00,000".
Proof.
  split; [|split; [|split]].
  - intros f Hf Hfin.
    destruct (round_float_finite _ Hfin) as [total Hr].
    exists total. split; [exact Hr|]. split; [now apply round_float_nearest|].
    pose proof (round_float_mul_1000_nonneg f total Hf Hr) as Hpos.
    split; [exact Hpos|].
    apply (format_timestamp_fields _ (PFloat (f * 1000)) total);
      [ | exact Hr | exact Hpos | now apply round_float_within_limit with (f * 1000)%float].
    unfold py_mul_int. rewrite float_of_int_1000. reflexivity.
  - intros z Hz Hlim.
    apply (format_timestamp_fields _ (PInt (z * 1000)));
      [reflexivity | reflexivity | lia | exact Hlim].
  - intros total Ht remainder.
    assert (H1 : 0 <= remainder < 3600000)
      by (apply Z.mod_pos_bound; lia).
    assert (H2 : 0 <= remainder mod 60000 < 60000)
      by (apply Z.mod_pos_bound; lia).
    assert (H3 : 0 <= remainder mod 60000 mod 1000 < 1000)
      by (apply Z.mod_pos_bound; lia).
    assert (H4 : 0 <= remainder / 60000 < 60).
    { split; [apply Z.div_pos; lia | apply Z.div_lt_upper_bound; lia]. }
    assert (H5 : 0 <= remainder mod 60000 / 1000 < 60).
    { split; [apply Z.div_pos; lia | apply Z.div_lt_upper_bound; lia]. }
    split; [apply Z.div_pos; lia|].
    split; [apply zero_pad_length_ge|].
    split; [exact H4|]. split; [apply zero_pad_2_length; lia|].
    split; [exact H5|]. split; [apply zero_pad_2_length; lia|].
    split; [exact H3|]. apply zero_pad_3_length; lia.
  - vm_compute. repeat split; reflexivity.
Qed.

(** The amended C1 at 61.5 seconds. *)
Lemma format_timestamp_spec_witness :
  (0 <=? 61.5)%float = true
  /\ float_is_finite (61.5 * 1000) = true
  /\ exists total,
       round_float (61.5 * 1000) = Ok total
       /\ nearest_even (61.5 * 1000) total
       /\ 0 <= total
       /\ format_timestamp (PFloat 61.5) = Ok (timestamp_text total).
Proof.
  split; [reflexivity|]. split; [reflexivity|].
  apply (proj1 format_timestamp_spec 61.5%float); reflexivity.
Defined.

(** * Trimming *)

Lemma lstrip_chars_split (l : list ascii) :
  exists ws, l = (ws ++ lstrip_chars l)%list /\ forallb py_isspace ws = true.
Proof.
  induction l as [|c l [ws [Hl Hws]]]; simpl.
  - exists []. auto.
  - destruct (py_isspace c) eqn:Hc.
    + exists (c :: ws). simpl. rewrite Hc, Hws. split; [congruence | reflexivity].
    + exists []. auto.
Qed.

Lemma lstrip_chars_head (l : list ascii) : no_space_at_head (lstrip_chars l).
Proof.
  induction l as [|c l IH]; simpl; [exact I|].
  destruct (py_isspace c) eqn:Hc; [exact IH | exact Hc].
Qed.

Lemma forallb_rev {A : Type} (p : A -> bool) (l : list A) :
  forallb p (rev l) = forallb p l.
Proof.
  induction l as [|a l IH]; simpl; [reflexivity|].
  rewrite forallb_app, IH. simpl. rewrite andb_true_r. apply andb_comm.
Qed.

Lemma rstrip_chars_split (l : list ascii) :
  exists ws, l = (rstrip_chars l ++ ws)%list /\ forallb py_isspace ws = true.
Proof.
  unfold rstrip_chars.
  destruct (lstrip_chars_split (rev l)) as [ws [Hl Hws]].
  exists (rev ws). split.
  - rewrite <- rev_app_distr, <- Hl, rev_involutive. reflexivity.
  - rewrite forallb_rev. exact Hws.
Qed.

Lemma rstrip_chars_last (l : list ascii) :
  no_space_at_head (rev (rstrip_chars l)).
Proof.
  unfold rstrip_chars. rewrite rev_involutive. apply lstrip_chars_head.
Qed.

Lemma rstrip_chars_head (l : list ascii) :
  no_space_at_head l -> no_space_at_head (rstrip_chars l).
Proof.
  intros Hl.
  destruct (rstrip_chars_split l) as [ws [Hsplit Hws]].
  destruct (rstrip_chars l) as [|c r] eqn:Hr; [exact I|].
  rewrite Hsplit in Hl. exact Hl.
Qed.

Lemma strip_trimmed (s : string) : trimmed s (strip s).
Proof.
  unfold trimmed, strip.
  rewrite list_ascii_of_string_of_list_ascii.
  set (l := list_ascii_of_string s).
  destruct (lstrip_chars_split l) as [pre [Hpre Hws1]].
  destruct (rstrip_chars_split (lstrip_chars l)) as [post [Hpost Hws2]].
  exists pre, post.
  split; [rewrite <- Hpost; exact Hpre|].
  split; [exact Hws1|]. split; [exact Hws2|].
  split; [apply rstrip_chars_head, lstrip_chars_head | apply rstrip_chars_last].
Qed.

(** * Rendering *)

Lemma format_timestamp_ok (v : pyval) :
  renderable_seconds v = true -> exists ts, format_timestamp v = Ok ts.
Proof.
  destruct v as [|b|z|f|s|l|d]; intros Hv; try discriminate Hv.
  - assert (Ht : total_milliseconds (PBool b) = Ok (int_of_bool b * 1000))
      by reflexivity.
    rewrite (format_timestamp_total _ _ Ht). cbv zeta.
    rewrite exceeds_str_digits_small
      by (destruct b; apply Z.leb_le; reflexivity).
    eauto.
  - assert (Ht : total_milliseconds (PInt z) = Ok (z * 1000)) by reflexivity.
    rewrite (format_timestamp_total _ _ Ht). cbv zeta.
    cbn [renderable_seconds] in Hv. apply negb_true_iff in Hv.
    rewrite Hv. eauto.
  - cbn [renderable_seconds] in Hv.
    destruct (round_float_finite _ Hv) as [t Hr].
    assert (Ht : total_milliseconds (PFloat f) = Ok t).
    { unfold total_milliseconds, py_mul_int. rewrite float_of_int_1000.
      exact Hr. }
    rewrite (format_timestamp_total _ _ Ht). cbv zeta.
    rewrite (round_float_within_limit _ _ Hr). eauto.
Qed.

Lemma srt_loop_body_entry (idx : Z) (seg : pyval) (lines : list string) :
  srt_loop_body idx seg lines
  = (b <- srt_entry idx seg ;; Ok (lines ++ b)%list).
Proof.
  unfold srt_loop_body, srt_entry, srt_block.
  destruct (py_getitem seg "start") as [s|]; cbn [bind]; [|reflexivity].
  destruct (format_timestamp s) as [ts|]; cbn [bind]; [|reflexivity].
  destruct (py_getitem seg "end") as [e|]; cbn [bind]; [|reflexivity].
  destruct (format_timestamp e) as [te|]; cbn [bind]; [|reflexivity].
  destruct (py_get seg "text" (PStr "")) as [t|]; cbn [bind]; [|reflexivity].
  destruct (py_strip t) as [text|]; cbn [bind]; [|reflexivity].
  rewrite <- !app_assoc. reflexivity.
Qed.

Lemma srt_loop_entries (k : Z) (segments : list pyval)
    (blocks : list (list string)) :
  entries_from k segments blocks ->
  forall lines, srt_loop k segments lines = Ok (lines ++ concat blocks)%list.
Proof.
  induction 1 as [k|k seg segments b blocks Hb _ IH]; intros lines; simpl.
  - now rewrite app_nil_r.
  - rewrite srt_loop_body_entry, Hb. cbn [bind].
    rewrite IH, app_assoc. reflexivity.
Qed.

Lemma entries_from_length (k : Z) (segments : list pyval)
    (blocks : list (list string)) :
  entries_from k segments blocks -> length blocks = length segments.
Proof. induction 1; simpl; congruence. Qed.

Lemma entries_from_nth (k : Z) (segments : list pyval)
    (blocks : list (list string)) :
  entries_from k segments blocks ->
  forall (i : nat) (seg : pyval),
    nth_error segments i = Some seg ->
    exists b, nth_error blocks i = Some b
              /\ srt_entry (k + Z.of_nat i) seg = Ok b.
Proof.
  induction 1 as [k|k seg0 segments b blocks Hb _ IH]; intros i seg Hi.
  - destruct i; discriminate.
  - destruct i as [|i]; simpl in Hi.
    + injection Hi as <-. exists b. rewrite Z.add_0_r. auto.
    + destruct (IH i seg Hi) as [b' [Hn He]].
      exists b'. split; [exact Hn|].
      replace (k + Z.of_nat (S i)) with (k + 1 + Z.of_nat i) by lia. exact He.
Qed.

Lemma entries_from_exists (segments : list pyval) :
  (forall seg, In seg segments -> forall k, exists b, srt_entry k seg = Ok b) ->
  forall k, exists blocks, entries_from k segments blocks.
Proof.
  induction segments as [|seg segments IH]; intros H k.
  - exists []. constructor.
  - destruct (H seg (or_introl eq_refl) k) as [b Hb].
    destruct (IH (fun s Hs => H s (or_intror Hs)) (k + 1)) as [blocks Hbs].
    exists (b :: blocks). now constructor.
Qed.

Lemma segments_to_srt_entries (segments : list pyval)
    (blocks : list (list string)) :
  entries_from 1 segments blocks ->
  segments_to_srt segments = Ok (join nl (concat blocks)).
Proof.
  intros H. unfold segments_to_srt.
  rewrite (srt_loop_entries _ _ _ H). reflexivity.
Qed.

Lemma srt_entry_record (k : Z) (seg : pyval) (s e : float) (t : string) :
  segment_record seg s e t ->
  float_is_finite (s * 1000) = true ->
  float_is_finite (e * 1000) = true ->
  exists ts te,
    format_timestamp (PFloat s) = Ok ts
    /\ format_timestamp (PFloat e) = Ok te
    /\ srt_entry k seg = Ok (srt_block k ts te (strip t)).
Proof.
  intros [d [-> [Hs [He Ht]]]] Fs Fe.
  destruct (format_timestamp_ok (PFloat s) Fs) as [ts Hts].
  destruct (format_timestamp_ok (PFloat e) Fe) as [te Hte].
  exists ts, te. split; [exact Hts|]. split; [exact Hte|].
  unfold srt_entry, py_getitem, py_get.
  rewrite Hs, He, Ht. cbn [bind]. rewrite Hts, Hte. reflexivity.
Qed.

(** C2, counterexample: one segment record with 0 <= start <= end whose end
    is 2^1020 seconds; the product by 1000 is infinite and the rendering
    raises OverflowError instead of returning a block. *)
Lemma segments_to_srt_overflow :
  let seg := PDict [("start", PFloat 0); ("end", PFloat 0x1p1020);
                    ("text", PStr "")] in
  segment_record seg 0 0x1p1020 ""
  /\ (0 <=? 0)%float = true
  /\ (0 <=? 0x1p1020)%float = true
  /\ segments_to_srt [seg] = Raise OverflowError.
Proof.
  cbv zeta. split.
  - eexists. repeat split; reflexivity.
  - vm_compute. auto.
Qed.

(** C2, amended: for every list of N segment records with 0 <= start <= end
    whose products by 1000 are finite floats, [segments_to_srt] returns the
    lines of N blocks joined with newlines, the blocks in the order of the
    segments; the block of the i-th segment (from 0) is the line [str(i+1)],
    the line of its two timestamps around [" --> "], its text without leading
    and trailing whitespace, and an empty line. *)
Theorem segments_to_srt_blocks (segments : list pyval) :
  (forall seg, In seg segments ->
     exists s e t,
       segment_record seg s e t
       /\ (0 <=? s)%float = true
       /\ (s <=? e)%float = true
       /\ float_is_finite (s * 1000) = true
       /\ float_is_finite (e * 1000) = true) ->
  exists blocks : list (list string),
    segments_to_srt segments = Ok (join nl (concat blocks))
    /\ length blocks = length segments
    /\ forall (i : nat) (seg : pyval),
         nth_error segments i = Some seg ->
         exists b, nth_error blocks i = Some b
                   /\ block_of_record (Z.of_nat i + 1) seg b.
Proof.
  intros Hsegs.
  destruct (entries_from_exists segments) with (k := 1) as [blocks Hb].
  { intros seg Hin k.
    destruct (Hsegs seg Hin) as [s [e [t [Hrec [_ [_ [Fs Fe]]]]]]].
    destruct (srt_entry_record k seg s e t Hrec Fs Fe) as [ts [te [_ [_ H]]]].
    eauto. }
  exists blocks.
  split; [now apply segments_to_srt_entries|].
  split; [now apply entries_from_length with (k := 1)|].
  intros i seg Hi.
  destruct (entries_from_nth _ _ _ Hb i seg Hi) as [b [Hn He]].
  exists b. split; [exact Hn|].
  destruct (Hsegs seg (nth_error_In _ _ Hi)) as [s [e [t [Hrec [_ [_ [Fs Fe]]]]]]].
  destruct (srt_entry_record (1 + Z.of_nat i) seg s e t Hrec Fs Fe)
    as [ts [te [Hts [Hte H]]]].
  rewrite H in He. injection He as <-.
  exists s, e, t, ts, te, (strip t).
  split; [exact Hrec|]. split; [exact Hts|]. split; [exact Hte|].
  split; [apply strip_trimmed|].
  now rewrite Z.add_comm.
Qed.

(** The amended C2 at two segments. *)
Lemma segments_to_srt_blocks_witness :
  let segments :=
    [PDict [("start", PFloat 0); ("end", PFloat 5); ("text", PStr " hello ")];
     PDict [("start", PFloat 5); ("end", PFloat 7.25); ("text", PStr "bye")]] in
  exists blocks : list (list string),
    segments_to_srt segments = Ok (join nl (concat blocks))
    /\ length blocks = length segments
    /\ forall (i : nat) (seg : pyval),
         nth_error segments i = Some seg ->
         exists b, nth_error blocks i = Some b
                   /\ block_of_record (Z.of_nat i + 1) seg b.
Proof.
  cbv zeta. apply segments_to_srt_blocks.
  intros seg [<-|[<-|[]]].
  - exists 0%float, 5%float, " hello ".
    split; [eexists; repeat split; reflexivity|].
    repeat split; reflexivity.
  - exists 5%float, 7.25%float, "bye".
    split; [eexists; repeat split; reflexivity|].
    repeat split; reflexivity.
Defined.

(** * The driver *)

Lemma file_writes_app (t u : list event) :
  file_writes (t ++ u) = (file_writes t ++ file_writes u)%list.
Proof.
  induction t as [|e t IH]; simpl; [reflexivity|].
  destruct e; simpl; rewrite IH; reflexivity.
Qed.

(** A run in which the input exists, the media tool exits with status 0 and
    the model answers [raw]. *)
Lemma main_transcribed (w : world) (args : Namespace) (raw : pyval)
    (segments : list pyval) (text : string) :
  os_path_exists w (input args) = true ->
  subprocess_check_call w (ffmpeg_command (input args) (audio_path w))
  = Ok tt ->
  whisper_import w = Ok tt ->
  whisper_load_model w (model args) = Ok tt ->
  whisper_transcribe w (model args) (audio_path w) = Ok raw ->
  normalize_result raw = Ok segments ->
  segments_to_srt segments = Ok text ->
  file_writes (fst (main w args)) = [(output_srt w args, text)]
  /\ snd (main w args)
     = (_ <- file_write w (output_srt w args) text ;; Ok 0).
Proof.
  intros Hex Hff Himp Hload Htr Hnorm Hsrt.
  unfold ffmpeg_command, audio_path in *.
  unfold main, with_TemporaryDirectory, run_ffmpeg_extract_audio,
    transcribe_audio_whisper, try_except, try_except_reraise, perform, emit,
    lift, ret, iobind.
  rewrite Hex, Hff, Himp, Hload, Htr, Hnorm. cbn [negb].
  fold (output_srt w args).
  destruct (segments_candidate raw); rewrite Hsrt;
    destruct (file_write w (output_srt w args) text) as [[]|e];
    split; reflexivity.
Qed.

(** * The first end-to-end scenario *)

(** C3, counterexample: the text rendered for the single segment is not the
    text the claim gives, which ends in two newlines. *)
Lemma hello_output_not_two_newlines :
  segments_to_srt [hello_segment]
  <> Ok ("1" ++ nl ++ "00:00:00,000 --> 00:00:05,000" ++ nl ++ "hello"
         ++ nl ++ nl).
Proof. intros H. vm_compute in H. discriminate H. Qed.

(** C3, amended: when the segment sequence is the single segment with start
    0.0, end 5.0 and text " hello ", the rendered text is the index line, the
    timestamp line and the trimmed text, each followed by one newline: the
    last of the four joined lines is empty, so the text ends in one newline;
    and this text is the one write of [main], to the output path. *)
Theorem hello_output (w : world) (args : Namespace) (raw : pyval) :
  os_path_exists w (input args) = true ->
  subprocess_check_call w (ffmpeg_command (input args) (audio_path w))
  = Ok tt ->
  whisper_import w = Ok tt ->
  whisper_load_model w (model args) = Ok tt ->
  whisper_transcribe w (model args) (audio_path w) = Ok raw ->
  normalize_result raw = Ok [hello_segment] ->
  let text := "1" ++ nl ++ "00:00:00,000 --> 00:00:05,000" ++ nl ++ "hello"
              ++ nl in
  segments_to_srt [hello_segment] = Ok text
  /\ file_writes (fst (main w args)) = [(output_srt w args, text)].
Proof.
  intros Hex Hff Himp Hload Htr Hnorm text.
  assert (Hsrt : segments_to_srt [hello_segment] = Ok text)
    by (vm_compute; reflexivity).
  split; [exact Hsrt|].
  exact (proj1 (main_transcribed w args raw _ text
                  Hex Hff Himp Hload Htr Hnorm Hsrt)).
Qed.

(** The amended C3 in a world whose model answers that segment. *)
Lemma hello_output_witness :
  let raw := PDict [("segments", PList [hello_segment])] in
  let w := example_world true (Ok tt) (Ok tt) (Ok raw) in
  let text := "1" ++ nl ++ "00:00:00,000 --> 00:00:05,000" ++ nl ++ "hello"
              ++ nl in
  segments_to_srt [hello_segment] = Ok text
  /\ file_writes (fst (main w example_args)) = [("talk.srt", text)].
Proof.
  cbv zeta.
  apply (hello_output
           (example_world true (Ok tt) (Ok tt)
              (Ok (PDict [("segments", PList [hello_segment])])))
           example_args
           (PDict [("segments", PList [hello_segment])]));
    reflexivity.
Defined.

(** * Normalisation of the model's result *)

Lemma no_usable_segments_candidate (raw : pyval) :
  no_usable_segments raw <-> segments_candidate raw = [].
Proof.
  unfold no_usable_segments, segments_candidate.
  destruct raw as [|b|z|f|s|l|d]; try tauto.
  destruct (dict_lookup d "segments") as [[|b|z|f|s|[|x l]|d']|];
    try tauto.
  split; [tauto | discriminate].
Qed.

Lemma fallback_fields_spec (raw : pyval) :
  fallback_fields raw
  = (match raw_field raw "duration" with Some v => v | None => PFloat 0 end,
     spec_text raw).
Proof. destruct raw; reflexivity. Qed.

Lemma safe_duration_spec (field : option pyval) (d : float) :
  spec_duration field = Some d ->
  safe_duration (match field with Some v => v | None => PFloat 0 end) = Ok d.
Proof.
  unfold spec_duration, safe_duration.
  destruct field as [[|b|z|f|s|l|dd]|];
    cbn [isinstance_int_float isinstance_str py_float]; try congruence.
  - destruct b; intros [= <-]; vm_compute; reflexivity.
  - destruct (float_of_int z); congruence.
  - unfold float_of_str.
    destruct (parse_float s); cbn [except_ValueError]; congruence.
Qed.

Lemma normalize_result_fallback (raw : pyval) (d : float) :
  no_usable_segments raw ->
  spec_duration (raw_field raw "duration") = Some d ->
  normalize_result raw = Ok [fallback_segment d (spec_text raw)].
Proof.
  intros Hno Hd. apply no_usable_segments_candidate in Hno.
  unfold normalize_result. rewrite Hno, fallback_fields_spec.
  rewrite (safe_duration_spec _ _ Hd). reflexivity.
Qed.

(** C4: the raw result [{"duration": 2**1024}] is a dict, its duration is an
    int, and the normalisation raises OverflowError on it: the conversion of
    the int to a float is outside the [try] that guards the str case. *)
Lemma normalize_result_raises :
  normalize_result (PDict [("duration", PInt (2 ^ 1024))])
  = Raise OverflowError.
Proof. vm_compute. reflexivity. Qed.

(** C5, counterexample: with no segments, an int duration of 10^400 makes the
    normalisation raise instead of returning a segment, and the int duration
    2^53 + 1 gives the end 2^53, not the int as it is. *)
Lemma fallback_int_duration_not_as_is :
  normalize_result
    (PDict [("segments", PList []); ("duration", PInt (10 ^ 400));
            ("text", PStr "hi")])
  = Raise OverflowError
  /\ normalize_result
       (PDict [("duration", PInt (2 ^ 53 + 1)); ("text", PStr "hi")])
     = Ok [fallback_segment 9007199254740992 (PStr "hi")].
Proof. split; vm_compute; reflexivity. Qed.

(** C5, amended: for every raw result whose "segments" is missing, an empty
    list or no list (or that is no dict), and whose duration coerces to the
    float [d] (a float as it is; an int as the nearest double, when there is
    one; a str that parses as a float as its value; anything else, an
    unparseable str or a missing field included, as 0.0), the normalisation
    returns exactly the one segment with start 0.0, end [d] and the raw
    "text" field as text (the empty string if absent or if the result is no
    dict).  With no segments, duration "12.3" and text "hi" the segment is
    start 0.0, end 12.3, text "hi", rendered with the time line
    "00:00:00,000 --> 00:00:12,300" and the text "hi". *)
Theorem fallback_segment_spec :
  (forall (raw : pyval) (d : float),
      no_usable_segments raw ->
      spec_duration (raw_field raw "duration") = Some d ->
      normalize_result raw = Ok [fallback_segment d (spec_text raw)])
  /\ normalize_result (PDict [("duration", PStr "12.3"); ("text", PStr "hi")])
     = Ok [fallback_segment 12.3 (PStr "hi")]
  /\ segments_to_srt [fallback_segment 12.3 (PStr "hi")]
     = Ok (join nl (srt_block 1 "00:00:00,000" "00:00:12,300" "hi")).
Proof.
  split; [exact normalize_result_fallback|].
  split; vm_compute; reflexivity.
Qed.

(** The amended C5 at a result that is no dict and at a numeric string. *)
Lemma fallback_segment_spec_witness :
  normalize_result PNone = Ok [fallback_segment 0 (PStr "")]
  /\ normalize_result
       (PDict [("segments", PStr "none"); ("duration", PStr " 2.5e1 ")])
     = Ok [fallback_segment 25 (PStr "")].
Proof.
  split.
  - apply (proj1 fallback_segment_spec PNone 0%float); [exact I | reflexivity].
  - apply (proj1 fallback_segment_spec
             (PDict [("segments", PStr "none"); ("duration", PStr " 2.5e1 ")])
             25%float); [exact I | reflexivity].
Defined.

(** C6: for every dict whose "segments" field is a non-empty list, the
    normalisation returns that list, element for element, and so does
    [transcribe_audio_whisper] when the model is imported and loaded and
    answers that dict. *)
Theorem normalize_result_passthrough (d : list (string * pyval))
    (x : pyval) (l : list pyval) :
  dict_lookup d "segments" = Some (PList (x :: l)) ->
  normalize_result (PDict d) = Ok (x :: l)
  /\ forall (w : world) (audio name : string),
       whisper_import w = Ok tt ->
       whisper_load_model w name = Ok tt ->
       whisper_transcribe w name audio = Ok (PDict d) ->
       snd (transcribe_audio_whisper w audio name) = Ok (x :: l).
Proof.
  intros Hd.
  assert (Hn : normalize_result (PDict d) = Ok (x :: l)).
  { unfold normalize_result, segments_candidate. rewrite Hd. reflexivity. }
  split; [exact Hn|].
  intros w audio name Himp Hload Htr.
  unfold transcribe_audio_whisper, try_except_reraise, perform, emit, lift,
    ret, iobind.
  rewrite Himp, Hload, Htr, Hn.
  unfold segments_candidate. rewrite Hd. reflexivity.
Qed.

(** C6 at a list of two elements, the second of them no dict. *)
Lemma normalize_result_passthrough_witness :
  normalize_result
    (PDict [("text", PStr "a b"); ("segments", PList [hello_segment; PInt 7])])
  = Ok [hello_segment; PInt 7].
Proof.
  apply (normalize_result_passthrough
           [("text", PStr "a b"); ("segments", PList [hello_segment; PInt 7])]
           hello_segment [PInt 7]).
  reflexivity.
Defined.

(** * Exit codes and the media tool *)

Lemma main_missing_input (w : world) (args : Namespace) :
  os_path_exists w (input args) = false ->
  main w args
  = ([PathExists (input args);
      Print ("Input file not found: " ++ input args)], Ok 2).
Proof.
  intros Hex. unfold main, perform, emit, ret, iobind.
  rewrite Hex. reflexivity.
Qed.

Lemma main_tool_raises (w : world) (args : Namespace) (e : pyexn) :
  os_path_exists w (input args) = true ->
  subprocess_check_call w (ffmpeg_command (input args) (audio_path w))
  = Raise e ->
  file_writes (fst (main w args)) = []
  /\ snd (main w args)
     = if is_CalledProcessError e then Ok 3 else Raise e.
Proof.
  intros Hex Hff.
  unfold ffmpeg_command, audio_path in *.
  unfold main, with_TemporaryDirectory, run_ffmpeg_extract_audio,
    try_except, perform, emit, raise, ret, iobind.
  rewrite Hex, Hff. cbn [negb].
  destruct e; split; reflexivity.
Qed.

Lemma main_model_raises (w : world) (args : Namespace) (e : pyexn) :
  os_path_exists w (input args) = true ->
  subprocess_check_call w (ffmpeg_command (input args) (audio_path w))
  = Ok tt ->
  whisper_import w = Raise e
  \/ (whisper_import w = Ok tt /\ whisper_load_model w (model args) = Raise e) ->
  file_writes (fst (main w args)) = []
  /\ snd (main w args) = Raise e.
Proof.
  intros Hex Hff [Himp|[Himp Hload]];
    unfold ffmpeg_command, audio_path in *;
    unfold main, with_TemporaryDirectory, run_ffmpeg_extract_audio,
      transcribe_audio_whisper, try_except, try_except_reraise, perform, emit,
      raise, lift, ret, iobind;
    rewrite Hex, Hff, Himp; try rewrite Hload; cbn [negb];
    split; reflexivity.
Qed.

(** C7: [main] returns 2 when the input path does not exist, and the run then
    has no external call and writes no file; it returns 3 when the media tool
    exits with a non-zero status (CalledProcessError); it returns 0 after
    the one write of the subtitle file when every step succeeds; a missing
    media tool (FileNotFoundError) and a failure to import or load the model
    are raised, not returned. *)
Theorem main_exit_codes (w : world) (args : Namespace) :
  (os_path_exists w (input args) = false ->
   snd (main w args) = Ok 2
   /\ fst (main w args)
      = [PathExists (input args);
         Print ("Input file not found: " ++ input args)]
   /\ external_calls (fst (main w args)) = []
   /\ file_writes (fst (main w args)) = [])
  /\ (os_path_exists w (input args) = true ->
      subprocess_check_call w (ffmpeg_command (input args) (audio_path w))
      = Raise CalledProcessError ->
      snd (main w args) = Ok 3)
  /\ (forall (raw : pyval) (segments : list pyval) (text : string),
         os_path_exists w (input args) = true ->
         subprocess_check_call w (ffmpeg_command (input args) (audio_path w))
         = Ok tt ->
         whisper_import w = Ok tt ->
         whisper_load_model w (model args) = Ok tt ->
         whisper_transcribe w (model args) (audio_path w) = Ok raw ->
         normalize_result raw = Ok segments ->
         segments_to_srt segments = Ok text ->
         file_write w (output_srt w args) text = Ok tt ->
         snd (main w args) = Ok 0
         /\ file_writes (fst (main w args)) = [(output_srt w args, text)])
  /\ (os_path_exists w (input args) = true ->
      subprocess_check_call w (ffmpeg_command (input args) (audio_path w))
      = Raise FileNotFoundError ->
      snd (main w args) = Raise FileNotFoundError)
  /\ (forall e : pyexn,
         os_path_exists w (input args) = true ->
         subprocess_check_call w (ffmpeg_command (input args) (audio_path w))
         = Ok tt ->
         whisper_import w = Raise e
         \/ (whisper_import w = Ok tt
             /\ whisper_load_model w (model args) = Raise e) ->
         snd (main w args) = Raise e).
Proof.
  split; [|split; [|split; [|split]]].
  - intros Hex. rewrite (main_missing_input w args Hex).
    repeat split; reflexivity.
  - intros Hex Hff.
    exact (proj2 (main_tool_raises w args CalledProcessError Hex Hff)).
  - intros raw segments text Hex Hff Himp Hload Htr Hnorm Hsrt Hwrite.
    destruct (main_transcribed w args raw segments text
                Hex Hff Himp Hload Htr Hnorm Hsrt) as [Hw Hr].
    rewrite Hr, Hwrite. split; [reflexivity | exact Hw].
  - intros Hex Hff.
    exact (proj2 (main_tool_raises w args FileNotFoundError Hex Hff)).
  - intros e Hex Hff Hmodel.
    exact (proj2 (main_model_raises w args e Hex Hff Hmodel)).
Qed.

(** C7 in four worlds: no input file, a failing media tool, a model that
    cannot be loaded, and a run that succeeds. *)
Lemma main_exit_codes_witness :
  snd (main (example_world false (Ok tt) (Ok tt) (Ok PNone)) example_args)
  = Ok 2
  /\ snd (main (example_world true (Raise CalledProcessError) (Ok tt)
                  (Ok PNone)) example_args) = Ok 3
  /\ snd (main (example_world true (Ok tt) (Raise RuntimeError) (Ok PNone))
            example_args) = Raise RuntimeError
  /\ snd (main (example_world true (Ok tt) (Ok tt) (Ok PNone)) example_args)
     = Ok 0.
Proof.
  split; [|split; [|split]].
  - apply (proj1 (main_exit_codes
                    (example_world false (Ok tt) (Ok tt) (Ok PNone))
                    example_args)).
    reflexivity.
  - apply (proj1 (proj2 (main_exit_codes
                    (example_world true (Raise CalledProcessError) (Ok tt)
                       (Ok PNone)) example_args)));
      reflexivity.
  - apply (proj2 (proj2 (proj2 (proj2 (main_exit_codes
                    (example_world true (Ok tt) (Raise RuntimeError)
                       (Ok PNone)) example_args)))) RuntimeError);
      [reflexivity | reflexivity | right; split; reflexivity].
  - apply (proj1 (proj2 (proj2 (main_exit_codes
                    (example_world true (Ok tt) (Ok tt) (Ok PNone))
                    example_args)))
             PNone [fallback_segment 0 (PStr "")]
             ("1" ++ nl ++ "00:00:00,000 --> 00:00:00,000" ++ nl ++ nl));
      reflexivity.
Defined.

(** C8: for every video path and audio path, whatever the world answers, the
    one external call of the audio extractor is the media tool with the
    arguments -y, -i, the video path, -ac, 1, -ar, 16000, -vn and the audio
    path, in this order. *)
Theorem run_ffmpeg_extract_audio_command (w : world)
    (video_path out_audio : string) :
  external_calls (fst (run_ffmpeg_extract_audio w video_path out_audio))
  = [CheckCall ["ffmpeg"; "-y"; "-i"; video_path; "-ac"; "1"; "-ar"; "16000";
                "-vn"; out_audio]].
Proof.
  unfold run_ffmpeg_extract_audio, try_except, perform, emit, raise, iobind.
  destruct (subprocess_check_call w _) as [u|e]; [reflexivity|].
  destruct e; reflexivity.
Qed.

(** * Segments without text, start or end *)

Lemma srt_entry_renderable (k : Z) (seg : pyval) :
  renderable_segment seg ->
  exists ts te text,
    srt_entry k seg = Ok (srt_block k ts te text)
    /\ (lacks_text seg -> text = "").
Proof.
  intros [d [vs [ve [-> [Hs [Fs [He [Fe Ht]]]]]]]].
  destruct (format_timestamp_ok vs Fs) as [ts Hts].
  destruct (format_timestamp_ok ve Fe) as [te Hte].
  unfold srt_entry, py_getitem, py_get.
  rewrite Hs, He. cbn [bind]. rewrite Hts, Hte. cbn [bind].
  destruct Ht as [Ht|[t Ht]]; rewrite Ht; cbn [bind py_strip].
  - exists ts, te, (strip ""). split; [reflexivity|]. intros _. reflexivity.
  - exists ts, te, (strip t). split; [reflexivity|].
    intros [d' [[= <-] Hnone]]. congruence.
Qed.

Lemma srt_loop_body_raises (idx : Z) (seg : pyval) (lines : list string)
    (e : pyexn) :
  srt_entry idx seg = Raise e -> srt_loop_body idx seg lines = Raise e.
Proof. intros H. rewrite srt_loop_body_entry, H. reflexivity. Qed.

(** C9, counterexample: each of the four segments has "start" and "end" with
    numeric values, and none is rendered: a "text" that is present but no str
    raises AttributeError, an end of 2^1020 seconds OverflowError, a NaN end
    ValueError, and an int end of 4401 digits ValueError too, at the digit
    limit of the [d] format. *)
Lemma segments_to_srt_numeric_raises :
  segments_to_srt
    [PDict [("start", PFloat 0); ("end", PFloat 1); ("text", PNone)]]
  = Raise AttributeError
  /\ segments_to_srt [PDict [("start", PInt 0); ("end", PFloat 0x1p1020)]]
     = Raise OverflowError
  /\ segments_to_srt [PDict [("start", PInt 0); ("end", PFloat nan)]]
     = Raise ValueError
  /\ segments_to_srt [PDict [("start", PInt 0); ("end", PInt (10 ^ 4400))]]
     = Raise ValueError.
Proof. vm_compute. auto. Qed.

(** C9, amended: for every list of dicts whose "start" and "end" are floats
    with a finite product by 1000 or ints whose hours field has at most 4300
    digits, and whose "text" is absent or a str, the rendering succeeds with
    one block per segment, and the text line of a segment without "text" is
    empty; a first segment that is a dict without "start", or with such a
    "start" and without "end", makes the rendering raise KeyError. *)
Theorem segments_to_srt_keys :
  (forall segments : list pyval,
      (forall seg, In seg segments -> renderable_segment seg) ->
      exists blocks : list (list string),
        segments_to_srt segments = Ok (join nl (concat blocks))
        /\ length blocks = length segments
        /\ forall (i : nat) (seg : pyval),
             nth_error segments i = Some seg ->
             exists ts te text,
               nth_error blocks i
               = Some (srt_block (Z.of_nat i + 1) ts te text)
               /\ (lacks_text seg -> text = ""))
  /\ (forall (d : list (string * pyval)) (rest : list pyval),
         dict_lookup d "start" = None ->
         segments_to_srt (PDict d :: rest) = Raise KeyError)
  /\ (forall (d : list (string * pyval)) (vs : pyval) (rest : list pyval),
         dict_lookup d "start" = Some vs ->
         renderable_seconds vs = true ->
         dict_lookup d "end" = None ->
         segments_to_srt (PDict d :: rest) = Raise KeyError).
Proof.
  split; [|split].
  - intros segments Hsegs.
    destruct (entries_from_exists segments) with (k := 1) as [blocks Hb].
    { intros seg Hin k.
      destruct (srt_entry_renderable k seg (Hsegs seg Hin))
        as [ts [te [text [H _]]]].
      eauto. }
    exists blocks.
    split; [now apply segments_to_srt_entries|].
    split; [now apply entries_from_length with (k := 1)|].
    intros i seg Hi.
    destruct (entries_from_nth _ _ _ Hb i seg Hi) as [b [Hn He]].
    destruct (srt_entry_renderable (1 + Z.of_nat i) seg
                (Hsegs seg (nth_error_In _ _ Hi)))
      as [ts [te [text [H Htext]]]].
    rewrite H in He. injection He as <-.
    exists ts, te, text. rewrite Z.add_comm. auto.
  - intros d rest Hs.
    unfold segments_to_srt. cbn [srt_loop].
    rewrite (srt_loop_body_raises 1 (PDict d) [] KeyError); [reflexivity|].
    unfold srt_entry, py_getitem. rewrite Hs. reflexivity.
  - intros d vs rest Hs Fs He.
    destruct (format_timestamp_ok vs Fs) as [ts Hts].
    unfold segments_to_srt. cbn [srt_loop].
    rewrite (srt_loop_body_raises 1 (PDict d) [] KeyError); [reflexivity|].
    unfold srt_entry, py_getitem. rewrite Hs, He. cbn [bind].
    rewrite Hts. reflexivity.
Qed.

(** The amended C9 at a segment without "text" after one with it, and at
    segments without "start" and without "end". *)
Lemma segments_to_srt_keys_witness :
  (exists blocks : list (list string),
      segments_to_srt
        [hello_segment; PDict [("start", PInt 5); ("end", PFloat 6.5)]]
      = Ok (join nl (concat blocks))
      /\ length blocks = 2%nat)
  /\ segments_to_srt [PDict [("end", PFloat 1); ("text", PStr "a")]]
     = Raise KeyError
  /\ segments_to_srt [PDict [("start", PFloat 1); ("text", PStr "a")]]
     = Raise KeyError.
Proof.
  split; [|split].
  - destruct (proj1 segments_to_srt_keys
                [hello_segment; PDict [("start", PInt 5); ("end", PFloat 6.5)]])
      as [blocks [H1 [H2 _]]].
    + intros seg [<-|[<-|[]]].
      * exists [("start", PFloat 0); ("end", PFloat 5);
                ("text", PStr " hello ")], (PFloat 0), (PFloat 5).
        repeat split; try reflexivity. right. exists " hello ". reflexivity.
      * exists [("start", PInt 5); ("end", PFloat 6.5)], (PInt 5), (PFloat 6.5).
        repeat split; try reflexivity. left. reflexivity.
    + exists blocks. split; [exact H1 | exact H2].
  - apply (proj1 (proj2 segments_to_srt_keys)). reflexivity.
  - apply (proj2 (proj2 segments_to_srt_keys)
             [("start", PFloat 1); ("text", PStr "a")] (PFloat 1) []);
      reflexivity.
Defined.

(** * Negative durations *)

Lemma ltb_zero_not_leb (d : float) :
  (d <? 0)%float = true -> (0 <=? d)%float = false.
Proof.
  rewrite ltb_spec, leb_spec.
  change (Prim2SF 0) with (S754_zero false).
  unfold SFltb, SFleb, SFcompare.
  destruct (Prim2SF d) as [s|[|]| |[|] m e]; auto; discriminate.
Qed.

Lemma negative_duration_spec (field : option pyval) (d : float) :
  negative_duration field d ->
  spec_duration field = Some d /\ (d <? 0)%float = true.
Proof.
  unfold negative_duration, spec_duration.
  destruct field as [[|b|z|f|s|l|dd]|]; try contradiction.
  - intros [Hz Hd]. rewrite Hd. split; [reflexivity|].
    exact (float_of_int_negative z d Hz Hd).
  - intros [-> Hf]. auto.
  - unfold float_of_str. intros [Hs Hd].
    destruct (parse_float s); [|discriminate].
    injection Hs as <-. auto.
Qed.

(** C10, counterexample: with no segments, the negative int duration
    -(10^400) makes the normalisation raise instead of building a segment,
    and the negative numeric string "-1e-400" gives the end -0.0, which is
    not below the start 0.0. *)
Lemma negative_duration_not_below_start :
  normalize_result (PDict [("duration", PInt (- 10 ^ 400))])
  = Raise OverflowError
  /\ normalize_result (PDict [("duration", PStr "-1e-400")])
     = Ok [fallback_segment neg_zero (PStr "")]
  /\ (neg_zero <? 0)%float = false.
Proof. vm_compute. auto. Qed.

(** C10, amended: for every raw result with no usable "segments" whose
    duration is a negative float, a negative int that has a nearest double,
    or a str whose value as a float is negative, the normalisation returns
    the one segment with start 0.0 and that negative float [d] as end, so the
    end is below the start and [start <= end] is false: there is no check of
    the sign. *)
Theorem negative_duration_kept (raw : pyval) (d : float) :
  no_usable_segments raw ->
  negative_duration (raw_field raw "duration") d ->
  normalize_result raw = Ok [fallback_segment d (spec_text raw)]
  /\ (d <? 0)%float = true
  /\ (0 <=? d)%float = false.
Proof.
  intros Hno Hneg.
  destruct (negative_duration_spec _ _ Hneg) as [Hd Hlt].
  split; [now apply normalize_result_fallback|].
  split; [exact Hlt | now apply ltb_zero_not_leb].
Qed.

(** The amended C10 at an int, a float and a str duration. *)
Lemma negative_duration_kept_witness :
  normalize_result (PDict [("duration", PInt (-3)); ("text", PStr "x")])
  = Ok [fallback_segment (-3) (PStr "x")]
  /\ normalize_result (PDict [("segments", PList []); ("duration", PFloat (-2.5))])
     = Ok [fallback_segment (-2.5) (PStr "")]
  /\ normalize_result (PDict [("duration", PStr "-12.3")])
     = Ok [fallback_segment (-12.3) (PStr "")].
Proof.
  split; [|split].
  - apply (negative_duration_kept
             (PDict [("duration", PInt (-3)); ("text", PStr "x")]) (-3)%float);
      [exact I | split; [reflexivity | reflexivity]].
  - apply (negative_duration_kept
             (PDict [("segments", PList []); ("duration", PFloat (-2.5))])
             (-2.5)%float);
      [exact I | split; reflexivity].
  - apply (negative_duration_kept
             (PDict [("duration", PStr "-12.3")]) (-12.3)%float);
      [exact I | split; reflexivity].
Defined.

(** * Where the normalisation returns *)

(** Apart from an int duration beyond the doubles, the normalisation returns,
    and what it returns is never empty. *)
Lemma normalize_result_returns (raw : pyval) :
  (forall z, raw_field raw "duration" = Some (PInt z) ->
             is_ok (float_of_int z) = true) ->
  exists segments, normalize_result raw = Ok segments /\ segments <> [].
Proof.
  intros Hint.
  destruct (segments_candidate raw) as [|x l] eqn:Hc.
  - assert (Hd : exists d, spec_duration (raw_field raw "duration") = Some d).
    { unfold spec_duration.
      destruct (raw_field raw "duration") as [[|b|z|f|s|l|dd]|] eqn:Hf; eauto.
      - specialize (Hint z eq_refl).
        destruct (float_of_int z); [eauto | discriminate].
      - destruct (parse_float s); eauto. }
    destruct Hd as [d Hd].
    exists [fallback_segment d (spec_text raw)]. split; [|discriminate].
    apply normalize_result_fallback; [|exact Hd].
    now apply no_usable_segments_candidate.
  - exists (x :: l). split; [|discriminate].
    unfold normalize_result. rewrite Hc. reflexivity.
Qed.

Lemma normalize_result_nonempty (raw : pyval) (segments : list pyval) :
  normalize_result raw = Ok segments -> segments <> [].
Proof.
  unfold normalize_result.
  destruct (segments_candidate raw) as [|x l].
  - destruct (fallback_fields raw) as [duration text].
    destruct (safe_duration duration); cbn [bind]; [|discriminate].
    intros [= <-]. discriminate.
  - intros [= <-]. discriminate.
Qed.

(** * More on [format_timestamp] *)

(** X1: [format_timestamp] returns for a bool, for an int whose hours field
    is within the digit limit, and for a float whose product by 1000 is
    finite; it raises ValueError for an int whose hours field has more than
    4300 digits and when the float product is NaN, OverflowError when that
    product is infinite, and TypeError for None, a str, a list and a dict. *)
Theorem format_timestamp_outcome (v : pyval) :
  match v with
  | PBool _ => exists ts, format_timestamp v = Ok ts
  | PInt z =>
      if exceeds_str_digits (z * 1000 / 3600000)
      then format_timestamp v = Raise ValueError
      else exists ts, format_timestamp v = Ok ts
  | PFloat f =>
      match Prim2SF (f * 1000) with
      | S754_nan => format_timestamp v = Raise ValueError
      | S754_infinity _ => format_timestamp v = Raise OverflowError
      | _ => exists ts, format_timestamp v = Ok ts
      end
  | _ => format_timestamp v = Raise TypeError
  end.
Proof.
  destruct v as [|b|z|f|s|l|d]; try reflexivity.
  - apply format_timestamp_ok. reflexivity.
  - assert (Ht : total_milliseconds (PInt z) = Ok (z * 1000)) by reflexivity.
    rewrite (format_timestamp_total _ _ Ht). cbv zeta.
    destruct (exceeds_str_digits (z * 1000 / 3600000)); eauto.
  - destruct (Prim2SF (f * 1000)) as [sg|sg| |sg m e] eqn:Hp.
    + apply format_timestamp_ok. unfold renderable_seconds, float_is_finite.
      rewrite Hp. reflexivity.
    + unfold format_timestamp, py_mul_int. rewrite float_of_int_1000.
      cbn [bind py_int_round]. unfold round_float. rewrite Hp. reflexivity.
    + unfold format_timestamp, py_mul_int. rewrite float_of_int_1000.
      cbn [bind py_int_round]. unfold round_float. rewrite Hp. reflexivity.
    + apply format_timestamp_ok. unfold renderable_seconds, float_is_finite.
      rewrite Hp. reflexivity.
Qed.

(** X2: when the hours field is within the digit limit, whatever the sign
    of the total, the fields of the returned text recompose to it,
    [total = hours*3600000 + minutes*60000 + secs*1000 + millis], with
    minutes and secs in 0..59 and millis in 0..999, each of these three at
    its fixed width; a negative total gives negative hours and a text that
    starts with a minus sign. *)
Theorem format_timestamp_recompose (v : pyval) (total : Z) :
  total_milliseconds v = Ok total ->
  exceeds_str_digits (total / 3600000) = false ->
  exists hours minutes secs millis,
    format_timestamp v = Ok (timestamp_fields hours minutes secs millis)
    /\ total = hours * 3600000 + minutes * 60000 + secs * 1000 + millis
    /\ 0 <= minutes < 60 /\ 0 <= secs < 60 /\ 0 <= millis < 1000
    /\ String.length (format_0d_text 2 minutes) = 2%nat
    /\ String.length (format_0d_text 2 secs) = 2%nat
    /\ String.length (format_0d_text 3 millis) = 3%nat
    /\ (total < 0 ->
        hours < 0
        /\ exists rest, timestamp_fields hours minutes secs millis
                        = "-" ++ rest).
Proof.
  intros Ht Hlim.
  pose proof (format_timestamp_total v total Ht) as Hf. cbv zeta in Hf.
  rewrite Hlim in Hf.
  set (r1 := total mod 3600000) in *.
  set (r2 := r1 mod 60000) in *.
  assert (H1 : 0 <= r1 < 3600000) by (apply Z.mod_pos_bound; lia).
  assert (H2 : 0 <= r2 < 60000) by (apply Z.mod_pos_bound; lia).
  assert (H3 : 0 <= r2 mod 1000 < 1000) by (apply Z.mod_pos_bound; lia).
  assert (H4 : 0 <= r1 / 60000 < 60).
  { split; [apply Z.div_pos; lia | apply Z.div_lt_upper_bound; lia]. }
  assert (H5 : 0 <= r2 / 1000 < 60).
  { split; [apply Z.div_pos; lia | apply Z.div_lt_upper_bound; lia]. }
  exists (total / 3600000), (r1 / 60000), (r2 / 1000), (r2 mod 1000).
  split; [exact Hf|]. split.
  { pose proof (Z.div_mod total 3600000 ltac:(lia)).
    pose proof (Z.div_mod r1 60000 ltac:(lia)).
    pose proof (Z.div_mod r2 1000 ltac:(lia)).
    fold r1 in H. fold r2 in H0. lia. }
  split; [exact H4|]. split; [exact H5|]. split; [exact H3|].
  rewrite !format_0d_text_nonneg by lia.
  split; [apply zero_pad_2_length; lia|].
  split; [apply zero_pad_2_length; lia|].
  split; [apply zero_pad_3_length; lia|].
  intros Hneg.
  assert (Hh : total / 3600000 < 0) by (apply Z.div_lt_upper_bound; lia).
  split; [exact Hh|].
  destruct (format_0d_text_negative 2 _ Hh) as [rest Hrest].
  unfold timestamp_fields. rewrite Hrest. simpl. eauto.
Qed.

(** X2 at -1.5 seconds: hours -1, minutes 59, secs 58, millis 500. *)
Lemma format_timestamp_recompose_witness :
  exists hours minutes secs millis,
    format_timestamp (PFloat (-1.5))
    = Ok (timestamp_fields hours minutes secs millis)
    /\ -1500 = hours * 3600000 + minutes * 60000 + secs * 1000 + millis
    /\ 0 <= minutes < 60 /\ 0 <= secs < 60 /\ 0 <= millis < 1000
    /\ String.length (format_0d_text 2 minutes) = 2%nat
    /\ String.length (format_0d_text 2 secs) = 2%nat
    /\ String.length (format_0d_text 3 millis) = 3%nat
    /\ (-1500 < 0 ->
        hours < 0
        /\ exists rest, timestamp_fields hours minutes secs millis
                        = "-" ++ rest).
Proof.
  apply (format_timestamp_recompose (PFloat (-1.5)) (-1500)); reflexivity.
Defined.

(** X3: below one hundred hours, a non-negative total gives a text of
    exactly twelve characters. *)
Theorem format_timestamp_length (v : pyval) (total : Z) :
  total_milliseconds v = Ok total ->
  0 <= total < 360000000 ->
  exists ts, format_timestamp v = Ok ts /\ String.length ts = 12%nat.
Proof.
  intros Ht Hrange.
  pose proof (format_timestamp_total v total Ht) as Hf. cbv zeta in Hf.
  assert (H0 : 0 <= total / 3600000 < 100).
  { split; [apply Z.div_pos; lia | apply Z.div_lt_upper_bound; lia]. }
  rewrite exceeds_str_digits_small in Hf by (apply thousand_small; lia).
  eexists. split; [exact Hf|].
  set (r1 := total mod 3600000) in *.
  set (r2 := r1 mod 60000) in *.
  assert (H1 : 0 <= r1 < 3600000) by (apply Z.mod_pos_bound; lia).
  assert (H2 : 0 <= r2 < 60000) by (apply Z.mod_pos_bound; lia).
  assert (H3 : 0 <= r2 mod 1000 < 1000) by (apply Z.mod_pos_bound; lia).
  assert (H4 : 0 <= r1 / 60000 < 60).
  { split; [apply Z.div_pos; lia | apply Z.div_lt_upper_bound; lia]. }
  assert (H5 : 0 <= r2 / 1000 < 60).
  { split; [apply Z.div_pos; lia | apply Z.div_lt_upper_bound; lia]. }
  unfold timestamp_fields.
  rewrite !format_0d_text_nonneg by lia.
  rewrite !length_append.
  rewrite !zero_pad_2_length, zero_pad_3_length by lia.
  reflexivity.
Qed.

(** X3 at 359999 seconds, one second below one hundred hours. *)
Lemma format_timestamp_length_witness :
  exists ts, format_timestamp (PInt 359999) = Ok ts
             /\ String.length ts = 12%nat.
Proof.
  apply (format_timestamp_length (PInt 359999) 359999000);
    [reflexivity | lia].
Defined.

(** * More on [segments_to_srt] *)

Lemma srt_loop_append (a b : list pyval) :
  forall (k : Z) (lines : list string),
    srt_loop k (a ++ b) lines
    = (l <- srt_loop k a lines ;; srt_loop (k + Z.of_nat (length a)) b l).
Proof.
  induction a as [|seg a IH]; intros k lines.
  - cbn [app srt_loop bind length]. now rewrite Z.add_0_r.
  - cbn [app srt_loop length].
    destruct (srt_loop_body k seg lines) as [lines'|e]; cbn [bind];
      [|reflexivity].
    replace (k + Z.of_nat (S (length a))) with (k + 1 + Z.of_nat (length a))
      by lia.
    apply IH.
Qed.

Lemma srt_entry_shape (k : Z) (seg : pyval) (b : list string) :
  srt_entry k seg = Ok b ->
  exists ts te text, b = srt_block k ts te text.
Proof.
  unfold srt_entry.
  destruct (py_getitem seg "start") as [s|]; cbn [bind]; [|discriminate].
  destruct (format_timestamp s) as [ts|]; cbn [bind]; [|discriminate].
  destruct (py_getitem seg "end") as [e|]; cbn [bind]; [|discriminate].
  destruct (format_timestamp e) as [te|]; cbn [bind]; [|discriminate].
  destruct (py_get seg "text" (PStr "")) as [t|]; cbn [bind]; [|discriminate].
  destruct (py_strip t) as [text|]; cbn [bind]; [|discriminate].
  intros [= <-]. eauto.
Qed.

(** A rendering that returns went through an entry for every segment. *)
Lemma srt_loop_inv (segments : list pyval) :
  forall (k : Z) (lines out : list string),
    srt_loop k segments lines = Ok out ->
    exists blocks,
      entries_from k segments blocks /\ out = (lines ++ concat blocks)%list.
Proof.
  induction segments as [|seg segments IH]; intros k lines out H.
  - cbn in H. injection H as <-. exists []. split; [constructor|].
    now rewrite app_nil_r.
  - cbn [srt_loop] in H. rewrite srt_loop_body_entry in H.
    destruct (srt_entry k seg) as [b|] eqn:Hb; cbn [bind] in H;
      [|discriminate].
    destruct (IH _ _ _ H) as [blocks [He ->]].
    exists (b :: blocks). split; [now constructor|].
    cbn [concat]. now rewrite app_assoc.
Qed.

(** X4: the loop over a concatenation is the loop over the first list,
    followed by the loop over the second one with the numbering continued
    and the lines so far kept; an exception in the first part ends it. *)
Theorem srt_loop_concatenation (a b : list pyval) (k : Z)
    (lines : list string) :
  srt_loop k (a ++ b) lines
  = (l <- srt_loop k a lines ;; srt_loop (k + Z.of_nat (length a)) b l).
Proof. apply srt_loop_append. Qed.

(** X5: a loop that returns has kept the lines it started with and added
    exactly four lines for each segment. *)
Theorem srt_loop_four_lines (segments : list pyval) (k : Z)
    (lines out : list string) :
  srt_loop k segments lines = Ok out ->
  exists added,
    out = (lines ++ added)%list
    /\ length added = (4 * length segments)%nat.
Proof.
  intros H. destruct (srt_loop_inv _ _ _ _ H) as [blocks [He ->]].
  exists (concat blocks). split; [reflexivity|].
  clear H. induction He as [k|k seg segments b blocks Hb _ IH].
  - reflexivity.
  - destruct (srt_entry_shape _ _ _ Hb) as [ts [te [text ->]]].
    cbn [concat length]. rewrite length_app, IH. cbn. lia.
Qed.

(** X5 at one segment, starting from one line. *)
Lemma srt_loop_four_lines_witness :
  exists added,
    ["x"; "1"; "00:00:00,000 --> 00:00:05,000"; "hello"; ""]
    = (["x"] ++ added)%list
    /\ length added = (4 * length [hello_segment])%nat.
Proof.
  apply (srt_loop_four_lines [hello_segment] 1 ["x"]). reflexivity.
Defined.

(** X6: the rendering is all or nothing: when the segments before one are
    rendered and that one raises, [segments_to_srt] raises the same
    exception, whatever follows. *)
Theorem segments_to_srt_first_error (pre post : list pyval) (seg : pyval)
    (blocks : list (list string)) (e : pyexn) :
  entries_from 1 pre blocks ->
  srt_entry (1 + Z.of_nat (length pre)) seg = Raise e ->
  segments_to_srt (pre ++ seg :: post) = Raise e.
Proof.
  intros Hpre Hseg. unfold segments_to_srt.
  rewrite srt_loop_append, (srt_loop_entries _ _ _ Hpre). cbn [bind srt_loop].
  rewrite (srt_loop_body_raises _ _ _ e Hseg). reflexivity.
Qed.

(** X6 at a good segment, one without "end", and one that is no dict. *)
Lemma segments_to_srt_first_error_witness :
  segments_to_srt [hello_segment; PDict [("start", PInt 1)]; PNone]
  = Raise KeyError.
Proof.
  apply (segments_to_srt_first_error [hello_segment] [PNone]
           (PDict [("start", PInt 1)])
           [srt_block 1 "00:00:00,000" "00:00:05,000" "hello"] KeyError).
  - constructor; [reflexivity | constructor].
  - reflexivity.
Defined.

(** X7: a first segment that is no dict makes the rendering raise
    TypeError. *)
Theorem segments_to_srt_not_dict (seg : pyval) (rest : list pyval) :
  (forall d, seg <> PDict d) ->
  segments_to_srt (seg :: rest) = Raise TypeError.
Proof.
  intros Hseg. unfold segments_to_srt. cbn [srt_loop].
  rewrite (srt_loop_body_raises 1 seg [] TypeError); [reflexivity|].
  unfold srt_entry.
  destruct seg as [|b|z|f|s|l|d]; try reflexivity.
  now destruct (Hseg d).
Qed.

(** X7 at a list in place of a dict. *)
Lemma segments_to_srt_not_dict_witness :
  segments_to_srt [PList [PFloat 0; PFloat 1; PStr "a"]; hello_segment]
  = Raise TypeError.
Proof.
  apply (segments_to_srt_not_dict (PList [PFloat 0; PFloat 1; PStr "a"])
           [hello_segment]).
  intros d. discriminate.
Defined.



Lemma join_cons (sep x : string) (l : list string) :
  l <> [] -> join sep (x :: l) = x ++ sep ++ join sep l.
Proof. destruct l; [congruence | reflexivity]. Qed.

Lemma append_assoc (a b c : string) : (a ++ b) ++ c = a ++ b ++ c.
Proof. induction a as [|x a IH]; simpl; [reflexivity | now rewrite IH]. Qed.

Lemma append_empty_r (a : string) : a ++ "" = a.
Proof. induction a as [|x a IH]; simpl; [reflexivity | now rewrite IH]. Qed.

Lemma join_snoc_empty (sep : string) (l : list string) :
  l <> [] -> join sep (l ++ [""]) = join sep l ++ sep.
Proof.
  induction l as [|x l IH]; [congruence|]. intros _.
  destruct l as [|y l].
  - cbn [app join]. now rewrite append_empty_r.
  - change ((x :: y :: l) ++ [""])%list with (x :: ((y :: l) ++ [""]))%list.
    rewrite join_cons by (cbn; discriminate).
    rewrite IH by discriminate.
    rewrite (join_cons sep x (y :: l)) by discriminate.
    now rewrite !append_assoc.
Qed.

Lemma entries_concat_shape (k : Z) (segments : list pyval)
    (blocks : list (list string)) :
  entries_from k segments blocks ->
  segments <> [] ->
  exists middle,
    concat blocks = (str_of_int k :: middle ++ [""])%list /\ middle <> [].
Proof.
  induction 1 as [k|k seg segments b blocks Hb Hrest IH]; [congruence|].
  intros _.
  destruct (srt_entry_shape _ _ _ Hb) as [ts [te [text ->]]].
  destruct segments as [|seg' segments].
  - inversion Hrest; subst. exists [ts ++ " --> " ++ te; text].
    split; [reflexivity | discriminate].
  - destruct (IH ltac:(discriminate)) as [middle [Hm _]].
    exists ((ts ++ " --> " ++ te)%string :: text :: "" :: str_of_int (k + 1)
            :: middle).
    split; [|discriminate].
    cbn [concat]. rewrite Hm. reflexivity.
Qed.

(** X9: the text [segments_to_srt] returns is empty for no segment, and for
    at least one segment it starts with the line of the index 1 and ends
    with a newline. *)
Theorem segments_to_srt_text_ends (segments : list pyval) (text : string) :
  segments_to_srt segments = Ok text ->
  match segments with
  | [] => text = ""
  | _ :: _ => exists body, text = "1" ++ nl ++ body ++ nl
  end.
Proof.
  unfold segments_to_srt.
  destruct (srt_loop 1 segments []) as [lines|] eqn:Hl; cbn [bind];
    [|discriminate].
  intros [= <-].
  destruct (srt_loop_inv _ _ _ _ Hl) as [blocks [He ->]]. cbn [app].
  destruct segments as [|seg segments].
  - inversion He; subst. reflexivity.
  - destruct (entries_concat_shape _ _ _ He ltac:(discriminate))
      as [middle [-> Hne]].
    exists (join nl middle).
    rewrite join_cons by (destruct middle; cbn; discriminate).
    rewrite join_snoc_empty by exact Hne. reflexivity.
Qed.

(** X9 at one segment. *)
Lemma segments_to_srt_text_ends_witness :
  exists body,
    "1" ++ nl ++ "00:00:00,000 --> 00:00:05,000" ++ nl ++ "hello" ++ nl
    = "1" ++ nl ++ body ++ nl.
Proof.
  apply (segments_to_srt_text_ends [hello_segment]
           ("1" ++ nl ++ "00:00:00,000 --> 00:00:05,000" ++ nl ++ "hello"
            ++ nl)).
  reflexivity.
Defined.

Lemma lstrip_chars_all_space (l : list ascii) :
  forallb py_isspace l = true -> lstrip_chars l = [].
Proof.
  induction l as [|c l IH]; [reflexivity|]. cbn.
  destruct (py_isspace c); [exact IH | discriminate].
Qed.

(** X10: a segment with times that [format_timestamp] renders and a text of
    only whitespace is rendered like one without text, with an empty text
    line; it is not skipped. *)
Theorem segments_to_srt_blank_text (d : list (string * pyval))
    (vs ve : pyval) (t : string) :
  dict_lookup d "start" = Some vs -> renderable_seconds vs = true ->
  dict_lookup d "end" = Some ve -> renderable_seconds ve = true ->
  dict_lookup d "text" = Some (PStr t) -> all_space t = true ->
  exists ts te,
    format_timestamp vs = Ok ts /\ format_timestamp ve = Ok te
    /\ segments_to_srt [PDict d] = Ok (join nl (srt_block 1 ts te "")).
Proof.
  intros Hs Fs He Fe Ht Hsp.
  destruct (format_timestamp_ok vs Fs) as [ts Hts].
  destruct (format_timestamp_ok ve Fe) as [te Hte].
  exists ts, te. split; [exact Hts|]. split; [exact Hte|].
  assert (Hentry : srt_entry 1 (PDict d) = Ok (srt_block 1 ts te "")).
  { unfold srt_entry, py_getitem, py_get.
    rewrite Hs, He, Ht. cbn [bind]. rewrite Hts, Hte. cbn [bind py_strip].
    unfold strip. unfold all_space in Hsp.
    rewrite (lstrip_chars_all_space _ Hsp). reflexivity. }
  change (join nl (srt_block 1 ts te ""))
    with (join nl (concat [srt_block 1 ts te ""])).
  apply segments_to_srt_entries. constructor; [exact Hentry | constructor].
Qed.

(** X10 at a text of a space, a tab and a newline. *)
Lemma segments_to_srt_blank_text_witness :
  exists ts te,
    format_timestamp (PFloat 1) = Ok ts /\ format_timestamp (PFloat 2) = Ok te
    /\ segments_to_srt
         [PDict [("start", PFloat 1); ("end", PFloat 2);
                 ("text", PStr (" " ++ String "009"%char nl))]]
       = Ok (join nl (srt_block 1 ts te "")).
Proof.
  apply (segments_to_srt_blank_text
           [("start", PFloat 1); ("end", PFloat 2);
            ("text", PStr (" " ++ String "009"%char nl))]
           (PFloat 1) (PFloat 2) (" " ++ String "009"%char nl));
    reflexivity.
Defined.

(** * More on the normalisation and on [transcribe_audio_whisper] *)

Lemma format_timestamp_is_ok (v : pyval) :
  is_ok (format_timestamp v) = renderable_seconds v.
Proof.
  destruct (renderable_seconds v) eqn:Hv.
  - destruct (format_timestamp_ok v Hv) as [ts ->]. reflexivity.
  - destruct v as [|b|z|f|s|l|d]; try discriminate Hv; try reflexivity.
    + assert (Ht : total_milliseconds (PInt z) = Ok (z * 1000))
        by reflexivity.
      rewrite (format_timestamp_total _ _ Ht). cbv zeta.
      cbn [renderable_seconds] in Hv. apply negb_false_iff in Hv.
      rewrite Hv. reflexivity.
    + unfold format_timestamp, py_mul_int. rewrite float_of_int_1000.
      cbn [bind py_int_round]. unfold round_float.
      unfold renderable_seconds, float_is_finite in Hv.
      destruct (Prim2SF (f * 1000)); try discriminate Hv; reflexivity.
Qed.

(** X11: what the normalisation returns is a fixed point: wrapped again as
    the "segments" of a dict, it comes back unchanged. *)
Theorem normalize_result_rewrap (raw : pyval) (segments : list pyval) :
  normalize_result raw = Ok segments ->
  normalize_result (PDict [("segments", PList segments)]) = Ok segments.
Proof.
  intros H. pose proof (normalize_result_nonempty raw segments H) as Hne.
  destruct segments as [|x l]; [congruence | reflexivity].
Qed.

(** X11 at the fallback segment of a result that is no dict. *)
Lemma normalize_result_rewrap_witness :
  normalize_result
    (PDict [("segments", PList [fallback_segment 0 (PStr "")])])
  = Ok [fallback_segment 0 (PStr "")].
Proof.
  apply (normalize_result_rewrap PNone [fallback_segment 0 (PStr "")]).
  reflexivity.
Defined.

(** X12: the fallback segment is rendered exactly when the text of the raw
    result is a str and the duration times 1000 is a finite float; a duration
    such as "nan" or "inf", or a text that is None, gives a segment that
    [segments_to_srt] refuses. *)
Theorem fallback_rendering (raw : pyval) (d : float) :
  no_usable_segments raw ->
  spec_duration (raw_field raw "duration") = Some d ->
  exists segments,
    normalize_result raw = Ok segments
    /\ is_ok (segments_to_srt segments)
       = float_is_finite (d * 1000) && isinstance_str (spec_text raw).
Proof.
  intros Hno Hd.
  exists [fallback_segment d (spec_text raw)].
  split; [now apply normalize_result_fallback|].
  unfold segments_to_srt. cbn [srt_loop]. rewrite srt_loop_body_entry.
  unfold srt_entry, fallback_segment, py_getitem, py_get.
  cbn [dict_lookup String.eqb Ascii.eqb Bool.eqb bind].
  assert (H0 : format_timestamp (PFloat 0) = Ok "00:00:00,000")
    by (vm_compute; reflexivity).
  rewrite H0. cbn [bind].
  pose proof (format_timestamp_is_ok (PFloat d)) as Hok.
  cbn [renderable_seconds] in Hok.
  destruct (format_timestamp (PFloat d)) as [te|e]; cbn [is_ok] in Hok;
    rewrite <- Hok; cbn [bind]; [|reflexivity].
  destruct (spec_text raw); reflexivity.
Qed.

(** X12 at a duration given as the string "nan". *)
Lemma fallback_rendering_witness :
  exists segments,
    normalize_result (PDict [("duration", PStr "nan"); ("text", PStr "hi")])
    = Ok segments
    /\ is_ok (segments_to_srt segments) = false.
Proof.
  apply (fallback_rendering
           (PDict [("duration", PStr "nan"); ("text", PStr "hi")]) nan);
    [exact I | reflexivity].
Defined.

(** X13: [transcribe_audio_whisper] imports, loads and transcribes once each
    and in this order, stops at the first of them that raises, and its
    outcome is that exception or the normalised answer of the model. *)
Theorem transcribe_audio_whisper_stages (w : world) (audio name : string) :
  external_calls (fst (transcribe_audio_whisper w audio name))
  = ImportWhisper
    :: match whisper_import w with
       | Raise _ => []
       | Ok _ =>
           LoadModel name
           :: match whisper_load_model w name with
              | Raise _ => []
              | Ok _ => [Transcribe name audio]
              end
       end
  /\ snd (transcribe_audio_whisper w audio name)
     = (_ <- whisper_import w ;;
        _ <- whisper_load_model w name ;;
        raw <- whisper_transcribe w name audio ;;
        normalize_result raw).
Proof.
  unfold_driver.
  destruct (whisper_import w) as [u|e]; [|split; reflexivity].
  destruct (whisper_load_model w name) as [u'|e]; [|split; reflexivity].
  destruct (whisper_transcribe w name audio) as [raw|e];
    [|split; reflexivity].
  cbn [bind].
  destruct (segments_candidate raw); destruct (normalize_result raw);
    split; reflexivity.
Qed.

(** X14: the import diagnostic is printed exactly when the import raises,
    and the no-segments diagnostic exactly when the model answered and its
    answer has no usable "segments". *)
Theorem transcribe_audio_whisper_diagnostics (w : world)
    (audio name : string) :
  (In (Print msg_import_failed) (fst (transcribe_audio_whisper w audio name))
   <-> exists e, whisper_import w = Raise e)
  /\ (In (Print msg_no_segments)
        (fst (transcribe_audio_whisper w audio name))
      <-> exists raw,
            whisper_import w = Ok tt
            /\ whisper_load_model w name = Ok tt
            /\ whisper_transcribe w name audio = Ok raw
            /\ no_usable_segments raw).
Proof.
  unfold_driver. unfold msg_import_failed, msg_no_segments.
  assert (Hev : forall (P : Prop) (t : list event) (m : string),
             (forall x, In x t -> x <> Print m) -> In (Print m) t -> P).
  { intros P t m Hall Hin. now destruct (Hall _ Hin). }
  destruct (whisper_import w) as [[]|e1].
  - split.
    { split; [|intros [? He]; discriminate He].
      destruct (whisper_load_model w name) as [[]|e2];
        [destruct (whisper_transcribe w name audio) as [raw|e3];
         [destruct (segments_candidate raw); destruct (normalize_result raw)|]
        |];
        cbn [fst app]; apply Hev; intros x Hx;
        repeat destruct Hx as [<-|Hx]; try discriminate; contradiction. }
    destruct (whisper_load_model w name) as [[]|e2].
    + destruct (whisper_transcribe w name audio) as [raw|e3].
      * destruct (segments_candidate raw) as [|x l] eqn:Hc.
        -- split.
           ++ intros _. exists raw. repeat split.
              now apply no_usable_segments_candidate.
           ++ intros _. destruct (normalize_result raw); cbn; tauto.
        -- split.
           ++ destruct (normalize_result raw); cbn [fst app]; apply Hev;
                intros y Hy; repeat destruct Hy as [<-|Hy];
                try discriminate; contradiction.
           ++ intros [raw' [_ [_ [Hr Hno]]]]. injection Hr as <-.
              apply no_usable_segments_candidate in Hno. congruence.
      * split; [|intros [raw' [_ [_ [Hr _]]]]; discriminate Hr].
        cbn [fst app]; apply Hev; intros y Hy;
          repeat destruct Hy as [<-|Hy]; try discriminate; contradiction.
    + split; [|intros [raw' [_ [Hr _]]]; discriminate Hr].
      cbn [fst app]; apply Hev; intros y Hy;
        repeat destruct Hy as [<-|Hy]; try discriminate; contradiction.
  - split.
    + split; [intros _; eauto | intros _; cbn; tauto].
    + split; [|intros [raw' [Hr _]]; discriminate Hr].
      cbn [fst app]; apply Hev; intros y Hy;
        repeat destruct Hy as [<-|Hy]; try discriminate; contradiction.
Qed.

(** * More on [run_ffmpeg_extract_audio] and [main] *)

(** X15: the audio extractor prints the command, its words joined by single
    spaces and the paths unquoted, then runs the tool once, and its outcome
    is the outcome of the tool: a missing tool is raised as
    FileNotFoundError, a non-zero exit as CalledProcessError, nothing is
    swallowed or retried. *)
Theorem run_ffmpeg_extract_audio_outcome (w : world)
    (video_path out_audio : string) :
  run_ffmpeg_extract_audio w video_path out_audio
  = ([Print ("Running: ffmpeg -y -i " ++ video_path
             ++ " -ac 1 -ar 16000 -vn " ++ out_audio);
      CheckCall (ffmpeg_command video_path out_audio)],
     subprocess_check_call w (ffmpeg_command video_path out_audio)).
Proof.
  unfold run_ffmpeg_extract_audio, ffmpeg_command, try_except, perform, emit,
    raise, iobind.
  destruct (subprocess_check_call w _) as [[]|e]; [reflexivity|].
  destruct e; reflexivity.
Qed.

(** X16: what [main] returns or raises is the composition of its stages: 2
    without the input file; 3 when the tool exits with a non-zero status;
    the exception of the tool, of the import, of the loading, of the
    transcription, of the normalisation, of the rendering or of the write,
    whichever comes first; and 0 otherwise. *)
Theorem main_result (w : world) (args : Namespace) :
  snd (main w args) = main_outcome w args.
Proof.
  unfold main_outcome, ffmpeg_command, audio_path, output_srt.
  unfold_driver. split_world; reflexivity.
Qed.

(** X17: the only values [main] returns are 0, 2 and 3. *)
Theorem main_returns_0_2_3 (w : world) (args : Namespace) (code : Z) :
  snd (main w args) = Ok code -> code = 0 \/ code = 2 \/ code = 3.
Proof.
  unfold_driver. split_world;
    intros H; try discriminate H; injection H as <-; auto.
Qed.

(** X17 in a world without the input file. *)
Lemma main_returns_0_2_3_witness : 2 = 0 \/ 2 = 2 \/ 2 = 3.
Proof.
  apply (main_returns_0_2_3
           (example_world false (Ok tt) (Ok tt) (Ok PNone)) example_args 2).
  reflexivity.
Defined.

(** X18: [main] writes at most one file, and only to the output path; when
    it returns 0 it has written it, and when it returns 2 or 3 it has
    written nothing. *)
Theorem main_writes (w : world) (args : Namespace) :
  (file_writes (fst (main w args)) = []
   \/ exists text,
        file_writes (fst (main w args)) = [(output_srt w args, text)])
  /\ (snd (main w args) = Ok 0 ->
      exists text,
        file_writes (fst (main w args)) = [(output_srt w args, text)]
        /\ file_write w (output_srt w args) text = Ok tt)
  /\ (forall code, snd (main w args) = Ok code -> code <> 0 ->
        file_writes (fst (main w args)) = []).
Proof.
  unfold output_srt. unfold_driver. split_world;
    (split; [|split]);
    try (left; reflexivity);
    try (right; eexists; reflexivity);
    try (intros H; discriminate H);
    try (intros code H; discriminate H);
    try (intros code H Hc; reflexivity);
    try (intros code H Hc; injection H as <-; congruence).
  all: intros _; eexists; split; [reflexivity | assumption].
Qed.

Lemma transcribe_audio_whisper_ok_inv (w : world) (audio name : string)
    (segments : list pyval) :
  snd (transcribe_audio_whisper w audio name) = Ok segments ->
  whisper_import w = Ok tt
  /\ whisper_load_model w name = Ok tt
  /\ exists raw,
       whisper_transcribe w name audio = Ok raw
       /\ normalize_result raw = Ok segments.
Proof.
  unfold_driver.
  destruct (whisper_import w) as [[]|e1]; [|discriminate].
  destruct (whisper_load_model w name) as [[]|e2]; [|discriminate].
  destruct (whisper_transcribe w name audio) as [raw|e3]; [|discriminate].
  destruct (segments_candidate raw);
    destruct (normalize_result raw) as [segs|e4] eqn:Hn;
    cbn [snd]; intros H; try discriminate H; injection H as <-; eauto.
Qed.

(** X19: the external calls of [main] are none without the input file;
    otherwise the media tool on the input and on audio.wav in the temporary
    directory, and, only when the tool exits with status 0, the calls of
    [transcribe_audio_whisper] on that audio file and the model of the
    arguments.  A failed extraction never reaches the model. *)
Theorem main_external_calls (w : world) (args : Namespace) :
  external_calls (fst (main w args))
  = if os_path_exists w (input args) then
      CheckCall (ffmpeg_command (input args) (audio_path w))
      :: match subprocess_check_call w
                 (ffmpeg_command (input args) (audio_path w)) with
         | Ok _ =>
             external_calls
               (fst (transcribe_audio_whisper w (audio_path w) (model args)))
         | Raise _ => []
         end
    else [].
Proof.
  unfold ffmpeg_command, audio_path. unfold_driver.
  split_world; reflexivity.
Qed.

(** X20: when the input exists, the temporary directory is created once,
    before everything else, and removed once on every path, also when a
    stage raises; no file is written before the removal and no external
    call is made after it. *)
Theorem main_tempdir_lifetime (w : world) (args : Namespace) :
  os_path_exists w (input args) = true ->
  exists mid post,
    fst (main w args)
    = (PathExists (input args) :: TempDirCreate (tempdir w)
       :: mid ++ TempDirCleanup (tempdir w) :: post)%list
    /\ file_writes mid = []
    /\ external_calls post = []
    /\ existsb is_tempdir_event (mid ++ post) = false.
Proof.
  intros Hex.
  exists (until_cleanup (skipn 2 (fst (main w args)))),
    (after_cleanup (skipn 2 (fst (main w args)))).
  unfold_driver. rewrite Hex.
  split_world; repeat split; reflexivity.
Qed.

(** X20 in a world whose model cannot be loaded. *)
Lemma main_tempdir_lifetime_witness :
  let w := example_world true (Ok tt) (Raise RuntimeError) (Ok PNone) in
  exists mid post,
    fst (main w example_args)
    = (PathExists "talk.mp4" :: TempDirCreate "/tmp/tmpdir"
       :: mid ++ TempDirCleanup "/tmp/tmpdir" :: post)%list
    /\ file_writes mid = []
    /\ external_calls post = []
    /\ existsb is_tempdir_event (mid ++ post) = false.
Proof.
  cbv zeta.
  apply (main_tempdir_lifetime
           (example_world true (Ok tt) (Raise RuntimeError) (Ok PNone))
           example_args).
  reflexivity.
Defined.

(** X21: when the extraction, the transcription and the rendering succeed,
    the trace of [main] is the existence check, the temporary directory
    around the events of the two stages, then the write of the rendered text
    to the output path, and the message "Wrote SRT to: ..." only if the
    write succeeded. *)
Theorem main_write_step (w : world) (args : Namespace)
    (segments : list pyval) (text : string) :
  os_path_exists w (input args) = true ->
  subprocess_check_call w (ffmpeg_command (input args) (audio_path w))
  = Ok tt ->
  snd (transcribe_audio_whisper w (audio_path w) (model args))
  = Ok segments ->
  segments_to_srt segments = Ok text ->
  fst (main w args)
  = (PathExists (input args) :: TempDirCreate (tempdir w)
     :: fst (run_ffmpeg_extract_audio w (input args) (audio_path w))
     ++ fst (transcribe_audio_whisper w (audio_path w) (model args))
     ++ [TempDirCleanup (tempdir w);
         WriteFile (output_srt w args) text]
     ++ match file_write w (output_srt w args) text with
        | Ok _ => [Print ("Wrote SRT to: " ++ output_srt w args)]
        | Raise _ => []
        end)%list.
Proof.
  intros Hex Hff Htr Hsrt.
  destruct (transcribe_audio_whisper_ok_inv _ _ _ _ Htr)
    as [Himp [Hload [raw [Hraw Hnorm]]]].
  unfold ffmpeg_command, audio_path, output_srt in *.
  unfold_driver.
  rewrite Hex, Hff, Himp, Hload, Hraw, Hnorm. cbn [negb].
  destruct (segments_candidate raw); rewrite Hsrt;
    destruct (file_write w _ text) as [[]|e]; reflexivity.
Qed.

(** X21 in a world where every stage succeeds. *)
Lemma main_write_step_witness :
  let w := example_world true (Ok tt) (Ok tt)
             (Ok (PDict [("segments", PList [hello_segment])])) in
  fst (main w example_args)
  = (PathExists "talk.mp4" :: TempDirCreate "/tmp/tmpdir"
     :: fst (run_ffmpeg_extract_audio w "talk.mp4" (audio_path w))
     ++ fst (transcribe_audio_whisper w (audio_path w) "small")
     ++ [TempDirCleanup "/tmp/tmpdir";
         WriteFile "talk.srt"
           ("1" ++ nl ++ "00:00:00,000 --> 00:00:05,000" ++ nl ++ "hello"
            ++ nl);
         Print "Wrote SRT to: talk.srt"])%list.
Proof.
  cbv zeta.
  apply (main_write_step
           (example_world true (Ok tt) (Ok tt)
              (Ok (PDict [("segments", PList [hello_segment])])))
           example_args [hello_segment]
           ("1" ++ nl ++ "00:00:00,000 --> 00:00:05,000" ++ nl ++ "hello"
            ++ nl));
    reflexivity.
Defined.

(** X14 in a world whose model answers None: the no-segments diagnostic is
    printed. *)
Lemma transcribe_audio_whisper_diagnostics_witness :
  In (Print msg_no_segments)
    (fst (transcribe_audio_whisper
            (example_world true (Ok tt) (Ok tt) (Ok PNone))
            "audio.wav" "small")).
Proof.
  apply (proj2 (proj2 (transcribe_audio_whisper_diagnostics
                         (example_world true (Ok tt) (Ok tt) (Ok PNone))
                         "audio.wav" "small"))).
  exists PNone. repeat split.
Defined.

(** X18 in a world where every stage succeeds. *)
Lemma main_writes_witness :
  let w := example_world true (Ok tt) (Ok tt) (Ok PNone) in
  exists text,
    file_writes (fst (main w example_args)) = [("talk.srt", text)]
    /\ file_write w "talk.srt" text = Ok tt.
Proof.
  cbv zeta.
  apply (proj1 (proj2 (main_writes
                         (example_world true (Ok tt) (Ok tt) (Ok PNone))
                         example_args))).
  reflexivity.
Defined.
